(** * create_presentation.py: a shallow embedding of the slide generator

    The script builds one in-memory presentation through the python-pptx
    object model, saves it and prints a summary.  The embedding keeps the
    script's shape: the document is a mutable store, every python-pptx object
    the script holds (a slide, a shape, a paragraph, a table cell) is a
    reference into that store, and every statement of the script is one
    monadic step that reads or updates the store through such a reference.
    Statements that can raise in Python ([paragraphs[i]], [positions[i]],
    [table.cell(i, j)], a colour assigned to a fill that is not solid) can
    raise here. *)

From Stdlib Require Import ZArith QArith Lia Ascii String.
From stdpp Require Import base list strings numbers.

Local Open Scope Z_scope.

(** ** Lengths, colours and enumerations of the library *)

(** [pptx.util.Inches(x)] is [int(x * 914400)] English Metric Units.  The
    decimal literals of the script are kept as rationals; for every literal
    that occurs in the script the floating-point product is the exact
    integer computed here. *)
Definition Inches (x : Q) : Z := Z.quot (Qnum x * 914400) (Z.pos (Qden x)).

(** [pptx.util.Pt(n)] is [n * 12700] English Metric Units. *)
Definition Pt (n : Z) : Z := n * 12700.

Inductive RGBColor := RGB (r g b : Z).

Inductive PP_ALIGN := LEFT | CENTER | RIGHT.

(** The fill of a shape, of a line or of a table cell.  [fill.solid()]
    selects a solid fill without a colour yet, [fore_color.rgb = c] gives it
    one, [fill.background()] selects no fill. *)
Inductive Fill :=
| FillInherited
| FillSolid (fore_color : option RGBColor)
| FillBackground.

Record Line := mkLine { line_fill : Fill; line_width : option Z }.

(** ** Text *)

Record Paragraph := mkParagraph {
  p_text : string;
  p_level : Z;
  p_font_size : option Z;
  p_font_bold : option bool;
  p_font_color : option RGBColor;
  p_alignment : option PP_ALIGN;
  p_space_before : option Z
}.

Record TextFrame := mkTextFrame {
  word_wrap : option bool;
  paragraphs : list Paragraph
}.

(** ** Tables *)

Record Cell := mkCell { cell_fill : Fill; cell_text_frame : TextFrame }.

Record Table := mkTable {
  column_widths : list Z;
  table_rows : list (list Cell)
}.

(** ** Shapes, slides, the document *)

Inductive ShapeType :=
| AutoShape (autoshape_type_id : Z)
| TextBox
| GraphicFrame.

Record Shape := mkShape {
  shape_type : ShapeType;
  shape_left : Z;
  shape_top : Z;
  shape_width : Z;
  shape_height : Z;
  shape_fill : Fill;
  shape_line : Line;
  text_frame : TextFrame;
  shape_table : option Table
}.

(** A slide is its [slide.shapes] sequence, in z-order. *)
Abbreviation Slide := (list Shape).

Record Presentation := mkPresentation {
  slide_width : Z;
  slide_height : Z;
  slides : list Slide
}.

(** The variables of [create_presentation] that its nested functions close
    over: the document and the five palette colours. *)
Record Env := mkEnv {
  prs : Presentation;
  PRIMARY_COLOR : RGBColor;
  SECONDARY_COLOR : RGBColor;
  ACCENT_COLOR : RGBColor;
  LIGHT_BG : RGBColor;
  WHITE : RGBColor
}.

(** ** Strings, and the text the library stores *)

Definition newline : Ascii.ascii := "010"%char.

Definition vertical_tab : Ascii.ascii := "011"%char.

(** Python's [s.split("\n")]: the pieces between line feeds; never empty. *)
Fixpoint split_newline (s : string) : list string :=
  match s with
  | EmptyString => [EmptyString]
  | String c s' =>
      if Ascii.eqb c newline then EmptyString :: split_newline s'
      else match split_newline s' with
           | [] => [String c EmptyString]
           | l :: ls => String c l :: ls
           end
  end.

(** The library does not store the text of a run as it is given: every
    character U+0000 to U+0008 and U+000B to U+001F is replaced by the seven
    characters [_xHHHH_], where [HHHH] is its code in upper-case hexadecimal;
    tab and line feed are kept, and so is every other character. *)
Definition is_escaped (c : Ascii.ascii) : bool :=
  ((N_of_ascii c <=? 8) || ((11 <=? N_of_ascii c) && (N_of_ascii c <=? 31)))%N.

Definition hex_digit (n : N) : Ascii.ascii :=
  ascii_of_N (if (n <? 10)%N then (48 + n)%N else (55 + n)%N).

Definition escape_ctrl_char (c : Ascii.ascii) : string :=
  String "_"%char (String "x"%char (String "0"%char (String "0"%char
    (String (hex_digit (N_of_ascii c / 16)%N)
       (String (hex_digit (N_of_ascii c mod 16)%N)
          (String "_"%char EmptyString)))))).

(** The value of [p.text] after [p.text = s]: a line feed or a vertical tab
    of [s] becomes a line break of the paragraph, which reads back as a
    vertical tab; the characters between are the text of runs, stored with
    their control characters escaped. *)
Fixpoint appended_text (s : string) : string :=
  match s with
  | EmptyString => EmptyString
  | String c s' =>
      if Ascii.eqb c newline || Ascii.eqb c vertical_tab
      then String vertical_tab (appended_text s')
      else if is_escaped c
           then String.append (escape_ctrl_char c) (appended_text s')
           else String c (appended_text s')
  end.


(** ** Field updates *)

Definition set_slides (ss : list Slide) (e : Env) : Env :=
  {| prs := {| slide_width := slide_width (prs e);
               slide_height := slide_height (prs e);
               slides := ss |};
     PRIMARY_COLOR := PRIMARY_COLOR e;
     SECONDARY_COLOR := SECONDARY_COLOR e;
     ACCENT_COLOR := ACCENT_COLOR e;
     LIGHT_BG := LIGHT_BG e;
     WHITE := WHITE e |}.

Definition set_slide_size (w h : Z) (p : Presentation) : Presentation :=
  {| slide_width := w; slide_height := h; slides := slides p |}.

Definition set_shape_fill (f : Fill) (s : Shape) : Shape :=
  {| shape_type := shape_type s; shape_left := shape_left s;
     shape_top := shape_top s; shape_width := shape_width s;
     shape_height := shape_height s; shape_fill := f;
     shape_line := shape_line s; text_frame := text_frame s;
     shape_table := shape_table s |}.

Definition set_shape_line (l : Line) (s : Shape) : Shape :=
  {| shape_type := shape_type s; shape_left := shape_left s;
     shape_top := shape_top s; shape_width := shape_width s;
     shape_height := shape_height s; shape_fill := shape_fill s;
     shape_line := l; text_frame := text_frame s;
     shape_table := shape_table s |}.

Definition set_text_frame (tf : TextFrame) (s : Shape) : Shape :=
  {| shape_type := shape_type s; shape_left := shape_left s;
     shape_top := shape_top s; shape_width := shape_width s;
     shape_height := shape_height s; shape_fill := shape_fill s;
     shape_line := shape_line s; text_frame := tf;
     shape_table := shape_table s |}.

Definition set_shape_table (t : option Table) (s : Shape) : Shape :=
  {| shape_type := shape_type s; shape_left := shape_left s;
     shape_top := shape_top s; shape_width := shape_width s;
     shape_height := shape_height s; shape_fill := shape_fill s;
     shape_line := shape_line s; text_frame := text_frame s;
     shape_table := t |}.

Definition set_paragraphs (ps : list Paragraph) (tf : TextFrame) : TextFrame :=
  {| word_wrap := word_wrap tf; paragraphs := ps |}.

Definition set_word_wrap (b : bool) (tf : TextFrame) : TextFrame :=
  {| word_wrap := Some b; paragraphs := paragraphs tf |}.

(** [p.text = t]: the paragraph keeps its properties; its text is [t] as the
    library stores it. *)
Definition set_p_text (t : string) (p : Paragraph) : Paragraph :=
  {| p_text := appended_text t; p_level := p_level p; p_font_size := p_font_size p;
     p_font_bold := p_font_bold p; p_font_color := p_font_color p;
     p_alignment := p_alignment p; p_space_before := p_space_before p |}.

Definition set_p_level (l : Z) (p : Paragraph) : Paragraph :=
  {| p_text := p_text p; p_level := l; p_font_size := p_font_size p;
     p_font_bold := p_font_bold p; p_font_color := p_font_color p;
     p_alignment := p_alignment p; p_space_before := p_space_before p |}.

Definition set_p_font_size (sz : Z) (p : Paragraph) : Paragraph :=
  {| p_text := p_text p; p_level := p_level p; p_font_size := Some sz;
     p_font_bold := p_font_bold p; p_font_color := p_font_color p;
     p_alignment := p_alignment p; p_space_before := p_space_before p |}.

Definition set_p_font_bold (b : bool) (p : Paragraph) : Paragraph :=
  {| p_text := p_text p; p_level := p_level p; p_font_size := p_font_size p;
     p_font_bold := Some b; p_font_color := p_font_color p;
     p_alignment := p_alignment p; p_space_before := p_space_before p |}.

Definition set_p_font_color (c : RGBColor) (p : Paragraph) : Paragraph :=
  {| p_text := p_text p; p_level := p_level p; p_font_size := p_font_size p;
     p_font_bold := p_font_bold p; p_font_color := Some c;
     p_alignment := p_alignment p; p_space_before := p_space_before p |}.

Definition set_p_alignment (a : PP_ALIGN) (p : Paragraph) : Paragraph :=
  {| p_text := p_text p; p_level := p_level p; p_font_size := p_font_size p;
     p_font_bold := p_font_bold p; p_font_color := p_font_color p;
     p_alignment := Some a; p_space_before := p_space_before p |}.

Definition set_p_space_before (v : Z) (p : Paragraph) : Paragraph :=
  {| p_text := p_text p; p_level := p_level p; p_font_size := p_font_size p;
     p_font_bold := p_font_bold p; p_font_color := p_font_color p;
     p_alignment := p_alignment p; p_space_before := Some v |}.

(** ** Fresh objects of the library *)

(** A paragraph as the library creates it: only its text is given. *)
Definition new_paragraph (t : string) : Paragraph :=
  {| p_text := t; p_level := 0; p_font_size := None; p_font_bold := None;
     p_font_color := None; p_alignment := None; p_space_before := None |}.

(** The paragraph the library adds for one line [l] of a text that is set
    on a text frame: fresh, with [l] appended to it. *)
Definition text_paragraph (l : string) : Paragraph :=
  new_paragraph (appended_text l).

(** A fresh text frame holds one empty paragraph. *)
Definition new_text_frame : TextFrame :=
  {| word_wrap := None; paragraphs := [new_paragraph EmptyString] |}.

(** A graphic frame has no text frame of its own. *)
Definition no_text_frame : TextFrame :=
  {| word_wrap := None; paragraphs := [] |}.

Definition new_line : Line := {| line_fill := FillInherited; line_width := None |}.

Definition new_autoshape (t x y cx cy : Z) : Shape :=
  {| shape_type := AutoShape t; shape_left := x; shape_top := y;
     shape_width := cx; shape_height := cy; shape_fill := FillInherited;
     shape_line := new_line; text_frame := new_text_frame;
     shape_table := None |}.

Definition new_textbox (x y cx cy : Z) : Shape :=
  {| shape_type := TextBox; shape_left := x; shape_top := y;
     shape_width := cx; shape_height := cy; shape_fill := FillInherited;
     shape_line := new_line; text_frame := new_text_frame;
     shape_table := None |}.

Definition new_cell : Cell :=
  {| cell_fill := FillInherited; cell_text_frame := new_text_frame |}.

(** [add_table(rows, cols, ...)] divides the width of the frame evenly
    among the columns (integer division, as the library does); the heights
    of the rows, which the script neither sets nor reads, are not kept. *)
Definition new_table (rows cols : nat) (cx cy : Z) : Table :=
  {| column_widths := replicate cols (cx `div` Z.of_nat cols);
     table_rows := replicate rows (replicate cols new_cell) |}.

Definition new_graphic_frame (rows cols : nat) (x y cx cy : Z) : Shape :=
  {| shape_type := GraphicFrame; shape_left := x; shape_top := y;
     shape_width := cx; shape_height := cy; shape_fill := FillInherited;
     shape_line := new_line; text_frame := no_text_frame;
     shape_table := Some (new_table rows cols cx cy) |}.

(** ** The monad of the script: a store that is threaded, and exceptions *)

Inductive exn :=
| IndexError
| TypeError
| AttributeError
| OSError
| StaleReference.

Inductive result (A : Type) :=
| Ok (a : A)
| Raise (x : exn).
Arguments Ok {A} a.
Arguments Raise {A} x.

Definition M (A : Type) : Type := Env -> result (A * Env).

#[global] Instance M_ret : MRet M := fun A a e => Ok (a, e).

#[global] Instance M_bind : MBind M := fun A B f m e =>
  match m e with
  | Ok (a, e') => f a e'
  | Raise x => Raise x
  end.

Definition read {A} (f : Env -> A) : M A := fun e => Ok (f e, e).

Definition raise {A} (x : exn) : M A := fun _ => Raise x.

(** Python's [for i, x in enumerate(l): body]. *)
Fixpoint for_enumerate_from {A} (i : nat) (l : list A)
    (body : nat -> A -> M unit) : M unit :=
  match l with
  | [] => mret tt
  | x :: l' => body i x ;; for_enumerate_from (S i) l' body
  end.

Definition for_enumerate {A} (l : list A) (body : nat -> A -> M unit) : M unit :=
  for_enumerate_from 0%nat l body.

(** Python's [for x in l: body]. *)
Fixpoint for_each {A} (l : list A) (body : A -> M unit) : M unit :=
  match l with
  | [] => mret tt
  | x :: l' => body x ;; for_each l' body
  end.

(** Python's [l[i]] for [i >= 0]. *)
Definition getitem {A} (l : list A) (i : nat) : M A :=
  match l !! i with
  | Some x => mret x
  | None => raise IndexError
  end.

(** ** References into the store *)

(** The objects the script holds are positions in the document: a slide is
    its index in [prs.slides], a shape its slide and its index in
    [slide.shapes], a paragraph its shape and its index in
    [text_frame.paragraphs], a cell its table shape, row and column. *)
Definition SlideRef : Type := nat.
Definition ShapeRef : Type := nat * nat.
Definition ParagraphRef : Type := ShapeRef * nat.
Definition CellRef : Type := ShapeRef * (nat * nat).

Definition update_slide {A} (r : SlideRef)
    (op : Slide -> result (A * Slide)) : M A := fun e =>
  match slides (prs e) !! r with
  | None => Raise StaleReference
  | Some s =>
      match op s with
      | Ok (a, s') => Ok (a, set_slides (<[r := s']> (slides (prs e))) e)
      | Raise x => Raise x
      end
  end.

Definition update_shape (r : ShapeRef) (op : Shape -> result Shape) : M unit :=
  update_slide r.1 (fun s =>
    match s !! r.2 with
    | None => Raise StaleReference
    | Some sh =>
        match op sh with
        | Ok sh' => Ok (tt, <[r.2 := sh']> s)
        | Raise x => Raise x
        end
    end).

Definition read_shape (r : ShapeRef) : M Shape := fun e =>
  match slides (prs e) !! r.1 ≫= (.!! r.2) with
  | Some sh => Ok (sh, e)
  | None => Raise StaleReference
  end.

Definition update_paragraph (p : ParagraphRef) (f : Paragraph -> Paragraph)
    : M unit :=
  update_shape p.1 (fun sh =>
    match paragraphs (text_frame sh) !! p.2 with
    | None => Raise StaleReference
    | Some q =>
        Ok (set_text_frame
              (set_paragraphs (<[p.2 := f q]> (paragraphs (text_frame sh)))
                 (text_frame sh)) sh)
    end).

(** ** The python-pptx calls the script makes *)

(** [prs.slides.add_slide(prs.slide_layouts[6])]: layout 6 of the default
    template is the blank one, the new slide has no shapes. *)
Definition slides_add_slide : M SlideRef := fun e =>
  Ok (length (slides (prs e)), set_slides (slides (prs e) ++ [[]]) e).

Definition append_shape (sh : Shape) (slide : SlideRef) : M ShapeRef :=
  k ← update_slide slide (fun s => Ok (length s, s ++ [sh]));
  mret (slide, k).

(** [slide.shapes.add_shape(t, x, y, cx, cy)] *)
Definition shapes_add_shape (slide : SlideRef) (t x y cx cy : Z) : M ShapeRef :=
  append_shape (new_autoshape t x y cx cy) slide.

(** [slide.shapes.add_textbox(x, y, cx, cy)] *)
Definition shapes_add_textbox (slide : SlideRef) (x y cx cy : Z) : M ShapeRef :=
  append_shape (new_textbox x y cx cy) slide.

(** [slide.shapes.add_table(rows, cols, x, y, cx, cy)] *)
Definition shapes_add_table (slide : SlideRef) (rows cols : nat)
    (x y cx cy : Z) : M ShapeRef :=
  append_shape (new_graphic_frame rows cols x y cx cy) slide.

(** [shape.fill.solid()] *)
Definition fill_solid (r : ShapeRef) : M unit :=
  update_shape r (fun sh => Ok (set_shape_fill (FillSolid None) sh)).

(** [shape.fill.fore_color.rgb = c]; a fill that is not solid has no
    foreground colour. *)
Definition fill_fore_color_rgb (r : ShapeRef) (c : RGBColor) : M unit :=
  update_shape r (fun sh =>
    match shape_fill sh with
    | FillSolid _ => Ok (set_shape_fill (FillSolid (Some c)) sh)
    | _ => Raise TypeError
    end).

(** [shape.line.fill.background()] *)
Definition line_fill_background (r : ShapeRef) : M unit :=
  update_shape r (fun sh =>
    Ok (set_shape_line
          {| line_fill := FillBackground;
             line_width := line_width (shape_line sh) |} sh)).

(** [shape.line.color.rgb = c]; reading [line.color] makes the line solid. *)
Definition line_color_rgb (r : ShapeRef) (c : RGBColor) : M unit :=
  update_shape r (fun sh =>
    Ok (set_shape_line
          {| line_fill := FillSolid (Some c);
             line_width := line_width (shape_line sh) |} sh)).

(** [shape.line.width = w] *)
Definition line_set_width (r : ShapeRef) (w : Z) : M unit :=
  update_shape r (fun sh =>
    Ok (set_shape_line
          {| line_fill := line_fill (shape_line sh);
             line_width := Some w |} sh)).

(** [text_frame.text = s]: the content is replaced by one fresh paragraph
    per line of [s], each line stored as [append_text] stores it. *)
Definition frame_with_text (s : string) (tf : TextFrame) : TextFrame :=
  set_paragraphs (text_paragraph <$> split_newline s) tf.

Definition text_frame_set_text (r : ShapeRef) (s : string) : M unit :=
  update_shape r (fun sh => Ok (set_text_frame (frame_with_text s (text_frame sh)) sh)).

(** [text_frame.word_wrap = b] *)
Definition text_frame_set_word_wrap (r : ShapeRef) (b : bool) : M unit :=
  update_shape r (fun sh => Ok (set_text_frame (set_word_wrap b (text_frame sh)) sh)).

(** [text_frame.add_paragraph()] *)
Definition text_frame_add_paragraph (r : ShapeRef) : M unit :=
  update_shape r (fun sh =>
    Ok (set_text_frame
          (set_paragraphs (paragraphs (text_frame sh) ++ [new_paragraph EmptyString])
             (text_frame sh)) sh)).

(** [text_frame.paragraphs[i]] *)
Definition paragraphs_getitem (r : ShapeRef) (i : nat) : M ParagraphRef :=
  sh ← read_shape r;
  if bool_decide (i < length (paragraphs (text_frame sh)))%nat
  then mret (r, i) else raise IndexError.

(** ** Table calls *)

Definition update_table (r : ShapeRef) (op : Table -> result Table) : M unit :=
  update_shape r (fun sh =>
    match shape_table sh with
    | None => Raise AttributeError
    | Some t =>
        match op t with
        | Ok t' => Ok (set_shape_table (Some t') sh)
        | Raise x => Raise x
        end
    end).

Definition set_table_rows (rows : list (list Cell)) (t : Table) : Table :=
  {| column_widths := column_widths t; table_rows := rows |}.

Definition set_column_widths (ws : list Z) (t : Table) : Table :=
  {| column_widths := ws; table_rows := table_rows t |}.

(** [table.columns[j].width = w] *)
Definition column_set_width (r : ShapeRef) (j : nat) (w : Z) : M unit :=
  update_table r (fun t =>
    if bool_decide (j < length (column_widths t))%nat
    then Ok (set_column_widths (<[j := w]> (column_widths t)) t)
    else Raise IndexError).

(** [table.cell(i, j)] *)
Definition table_cell (r : ShapeRef) (i j : nat) : M CellRef :=
  sh ← read_shape r;
  match shape_table sh with
  | None => raise AttributeError
  | Some t =>
      match table_rows t !! i ≫= (.!! j) with
      | Some _ => mret (r, (i, j))
      | None => raise IndexError
      end
  end.

Definition update_cell (c : CellRef) (op : Cell -> result Cell) : M unit :=
  update_table c.1 (fun t =>
    match table_rows t !! c.2.1 with
    | None => Raise StaleReference
    | Some row =>
        match row !! c.2.2 with
        | None => Raise StaleReference
        | Some x =>
            match op x with
            | Ok x' => Ok (set_table_rows (<[c.2.1 := <[c.2.2 := x']> row]> (table_rows t)) t)
            | Raise e => Raise e
            end
        end
    end).

(** [cell.text = s] sets the text of the cell's text frame. *)
Definition cell_set_text (c : CellRef) (s : string) : M unit :=
  update_cell c (fun x =>
    Ok {| cell_fill := cell_fill x;
          cell_text_frame := frame_with_text s (cell_text_frame x) |}).

(** [cell.fill.solid()] *)
Definition cell_fill_solid (c : CellRef) : M unit :=
  update_cell c (fun x =>
    Ok {| cell_fill := FillSolid None; cell_text_frame := cell_text_frame x |}).

(** [cell.fill.fore_color.rgb = col] *)
Definition cell_fill_fore_color_rgb (c : CellRef) (col : RGBColor) : M unit :=
  update_cell c (fun x =>
    match cell_fill x with
    | FillSolid _ =>
        Ok {| cell_fill := FillSolid (Some col);
              cell_text_frame := cell_text_frame x |}
    | _ => Raise TypeError
    end).

(** [cell.text_frame.paragraphs]: the paragraphs of the cell, as references. *)
Definition cell_paragraphs (c : CellRef) : M (list (CellRef * nat)) :=
  sh ← read_shape c.1;
  match shape_table sh with
  | None => raise AttributeError
  | Some t =>
      match table_rows t !! c.2.1 ≫= (.!! c.2.2) with
      | Some x =>
          mret ((fun k => (c, k)) <$>
                seq 0 (length (paragraphs (cell_text_frame x))))
      | None => raise StaleReference
      end
  end.

Definition update_cell_paragraph (p : CellRef * nat)
    (f : Paragraph -> Paragraph) : M unit :=
  update_cell p.1 (fun x =>
    match paragraphs (cell_text_frame x) !! p.2 with
    | None => Raise StaleReference
    | Some q =>
        Ok {| cell_fill := cell_fill x;
              cell_text_frame :=
                set_paragraphs (<[p.2 := f q]> (paragraphs (cell_text_frame x)))
                  (cell_text_frame x) |}
    end).

(** ** The three builders nested in [create_presentation] *)

(** [add_title_slide(title, subtitle)] *)
Definition add_title_slide (title subtitle : string) : M SlideRef :=
  slide ← slides_add_slide;
  (* background rectangle *)
  w ← read (fun e => slide_width (prs e));
  h ← read (fun e => slide_height (prs e));
  bg ← shapes_add_shape slide 1 0 0 w h;
  fill_solid bg;;
  read PRIMARY_COLOR ≫= fill_fore_color_rgb bg;;
  line_fill_background bg;;
  (* title *)
  title_box ← shapes_add_textbox slide (Inches 1) (Inches 2.5) (Inches 8) (Inches 1);
  text_frame_set_text title_box title;;
  title_para ← paragraphs_getitem title_box 0;
  update_paragraph title_para (set_p_font_size (Pt 54));;
  update_paragraph title_para (set_p_font_bold true);;
  read WHITE ≫= (fun c => update_paragraph title_para (set_p_font_color c));;
  update_paragraph title_para (set_p_alignment CENTER);;
  (* subtitle *)
  subtitle_box ← shapes_add_textbox slide (Inches 1) (Inches 4) (Inches 8) (Inches 1);
  text_frame_set_text subtitle_box subtitle;;
  subtitle_para ← paragraphs_getitem subtitle_box 0;
  update_paragraph subtitle_para (set_p_font_size (Pt 28));;
  read WHITE ≫= (fun c => update_paragraph subtitle_para (set_p_font_color c));;
  update_paragraph subtitle_para (set_p_alignment CENTER);;
  mret slide.

(** The title bar and the title text that [add_content_slide],
    [add_feature_slide] and the inline slides 9 and 12 each start with (the
    script repeats these statements in all four places). *)
Definition add_title_bar (slide : SlideRef) (title : string) : M unit :=
  w ← read (fun e => slide_width (prs e));
  title_bar ← shapes_add_shape slide 1 0 0 w (Inches 1);
  fill_solid title_bar;;
  read PRIMARY_COLOR ≫= fill_fore_color_rgb title_bar;;
  line_fill_background title_bar;;
  title_box ← shapes_add_textbox slide (Inches 0.5) (Inches 0.2) (Inches 9) (Inches 0.6);
  text_frame_set_text title_box title;;
  title_para ← paragraphs_getitem title_box 0;
  update_paragraph title_para (set_p_font_size (Pt 36));;
  update_paragraph title_para (set_p_font_bold true);;
  read WHITE ≫= (fun c => update_paragraph title_para (set_p_font_color c)).

(** [add_content_slide(title, content_items, layout_type)]; the default
    ["bullet"] of [layout_type] is passed by the callers. *)
Definition add_content_slide (title : string) (content_items : list string)
    (layout_type : string) : M SlideRef :=
  slide ← slides_add_slide;
  add_title_bar slide title;;
  (if String.eqb layout_type "bullet" then
     content_box ← shapes_add_textbox slide (Inches 0.8) (Inches 1.5) (Inches 8.4) (Inches 5.5);
     text_frame_set_word_wrap content_box true;;
     for_enumerate content_items (fun i item =>
       (if bool_decide (0 < i)%nat then text_frame_add_paragraph content_box
        else mret tt);;
       p ← paragraphs_getitem content_box i;
       update_paragraph p (set_p_text item);;
       update_paragraph p (set_p_level 0);;
       update_paragraph p (set_p_font_size (Pt 20));;
       read SECONDARY_COLOR ≫= (fun c => update_paragraph p (set_p_font_color c));;
       update_paragraph p (set_p_space_before (Pt 12)))
   else if String.eqb layout_type "two_column" then
     (* left column *)
     left_box ← shapes_add_textbox slide (Inches 0.8) (Inches 1.5) (Inches 4) (Inches 5.5);
     text_frame_set_word_wrap left_box true;;
     for_enumerate (take (length content_items / 2) content_items) (fun i item =>
       (if bool_decide (0 < i)%nat then text_frame_add_paragraph left_box
        else mret tt);;
       p ← paragraphs_getitem left_box i;
       update_paragraph p (set_p_text item);;
       update_paragraph p (set_p_font_size (Pt 18));;
       read SECONDARY_COLOR ≫= (fun c => update_paragraph p (set_p_font_color c));;
       update_paragraph p (set_p_space_before (Pt 10)));;
     (* right column *)
     right_box ← shapes_add_textbox slide (Inches 5.2) (Inches 1.5) (Inches 4) (Inches 5.5);
     text_frame_set_word_wrap right_box true;;
     for_enumerate (drop (length content_items / 2) content_items) (fun i item =>
       (if bool_decide (0 < i)%nat then text_frame_add_paragraph right_box
        else mret tt);;
       p ← paragraphs_getitem right_box i;
       update_paragraph p (set_p_text item);;
       update_paragraph p (set_p_font_size (Pt 18));;
       read SECONDARY_COLOR ≫= (fun c => update_paragraph p (set_p_font_color c));;
       update_paragraph p (set_p_space_before (Pt 10)))
   else mret tt);;
  mret slide.

(** The four grid positions of [add_feature_slide]. *)
Definition feature_positions : list (Z * Z) :=
  [ (Inches 0.8, Inches 1.5);
    (Inches 5.2, Inches 1.5);
    (Inches 0.8, Inches 4.2);
    (Inches 5.2, Inches 4.2) ].

(** [add_feature_slide(title, features)] *)
Definition add_feature_slide (title : string)
    (features : list (string * string)) : M SlideRef :=
  slide ← slides_add_slide;
  add_title_bar slide title;;
  let box_width := Inches 4 in
  let box_height := Inches 2.5 in
  let positions := feature_positions in
  for_enumerate (take 4 features) (fun i feature =>
    let '(feature_title, feature_desc) := feature in
    pos ← getitem positions i;
    let '(x, y) := pos in
    (* feature box background *)
    box ← shapes_add_shape slide 1 x y box_width box_height;
    fill_solid box;;
    read LIGHT_BG ≫= fill_fore_color_rgb box;;
    read PRIMARY_COLOR ≫= line_color_rgb box;;
    line_set_width box (Pt 2);;
    (* feature title *)
    title_box ← shapes_add_textbox slide (x + Inches 0.2) (y + Inches 0.2)
                  (box_width - Inches 0.4) (Inches 0.5);
    text_frame_set_text title_box feature_title;;
    title_para ← paragraphs_getitem title_box 0;
    update_paragraph title_para (set_p_font_size (Pt 22));;
    update_paragraph title_para (set_p_font_bold true);;
    read PRIMARY_COLOR ≫= (fun c => update_paragraph title_para (set_p_font_color c));;
    (* feature description *)
    desc_box ← shapes_add_textbox slide (x + Inches 0.2) (y + Inches 0.8)
                 (box_width - Inches 0.4) (box_height - Inches 1);
    text_frame_set_text desc_box feature_desc;;
    text_frame_set_word_wrap desc_box true;;
    desc_para ← paragraphs_getitem desc_box 0;
    update_paragraph desc_para (set_p_font_size (Pt 16));;
    read SECONDARY_COLOR ≫= (fun c => update_paragraph desc_para (set_p_font_color c)));;
  mret slide.

(** ** The body of [create_presentation] *)

(** [table_data] of slide 9. *)
Definition table_data : list (list string) :=
  [ [ "Feature"; "Traditional Tools"; "Our Platform" ];
    [ "Learning Curve"; "Weeks"; "✅ Minutes" ];
    [ "Real-Time Feedback"; "❌ No"; "✅ Instant" ];
    [ "Visual Comparison"; "Manual"; "✅ Side-by-side" ];
    [ "Setup Complexity"; "High"; "✅ One-click" ];
    [ "Cost"; "$$$$"; "✅ Local & Free" ];
    [ "Extensibility"; "Limited"; "✅ Open Architecture" ] ].

(** [stats] and [positions] of slide 12. *)
Definition stats : list (string * string) :=
  [ ("⚡ <100ms", "Visualization Updates");
    ("🗄️ 10:1", "Data Compression");
    ("🎨 4 Types", "Signal Generation");
    ("🔧 4 Operations", "Signal Processing");
    ("🏗️ 4 Layers", "Clean Architecture");
    ("✅ 100%", "Local Deployment") ].

Definition stat_positions : list (Z * Z) :=
  [ (Inches 0.8, Inches 1.8);
    (Inches 3.7, Inches 1.8);
    (Inches 6.6, Inches 1.8);
    (Inches 0.8, Inches 4.3);
    (Inches 3.7, Inches 4.3);
    (Inches 6.6, Inches 4.3) ].

(** [steps_text] of slide 13. *)
Definition steps_text : list string :=
  [ "1. Clone the repository";
    "2. Run start.ps1 (Windows)";
    "3. Start processing in under 60 seconds" ].

(** The statements of [create_presentation] from the first builder call to
    the last slide: fourteen slides, ten through the builders and four
    built inline. *)
Definition build_slides : M unit :=
  (* Slide 1: Title Slide *)
  add_title_slide
    "Signal Processing Visualization Platform"
    "Making Complex Signal Analysis Simple, Visual, and Accessible";;
  (* Slide 2: The Problem *)
  add_content_slide
    "The Challenge"
    [ "❌ Complex tools with steep learning curves";
      "❌ No real-time visualization of processing effects";
      "❌ Difficult to experiment with different parameters";
      "❌ Poor integration between generation, processing, and analysis";
      EmptyString;
      "✅ Our Solution: An all-in-one platform that makes signal processing";
      "    visual, interactive, and accessible" ]
    "bullet";;
  (* Slide 3: Key Features Overview *)
  add_feature_slide
    "Key Features"
    [ ("🎵 Multi-Signal Generation",
       "Generate sine, square, sawtooth waves, and white noise with configurable parameters");
      ("⚡ Real-Time Processing",
       "Apply filters and transformations with instant visual feedback");
      ("📊 Interactive Visualization",
       "Professional charting with zoom, pan, and side-by-side comparison");
      ("🔔 Smart Event Detection",
       "Monitor signals with configurable thresholds and automatic event logging") ];;
  (* Slide 4: Signal Generation *)
  add_content_slide
    "Multi-Signal Generation"
    [ "🎵 Sine Waves - Pure tones for testing";
      "⬛ Square Waves - Digital signal simulation";
      "📐 Sawtooth Waves - Audio synthesis";
      "📡 White Noise - System testing";
      EmptyString;
      "Configure:";
      "  • Frequency, amplitude, phase";
      "  • Duration and sample rate";
      "  • Instant parameter validation" ]
    "bullet";;
  (* Slide 5: Signal Processing *)
  add_content_slide
    "Real-Time Signal Processing"
    [ "🔽 Low-Pass Filters";
      "  Remove high-frequency noise";
      EmptyString;
      "🔼 High-Pass Filters";
      "  Eliminate DC offset and low-frequency drift";
      EmptyString;
      "🎚️ Band-Pass Filters";
      "  Isolate specific frequency ranges";
      EmptyString;
      "📈 Gain Adjustment";
      "  Amplify or attenuate signals";
      EmptyString;
      "✨ See effects immediately with side-by-side comparison" ]
    "bullet";;
  (* Slide 6: Technical Excellence *)
  add_content_slide
    "Enterprise-Grade Architecture"
    [ "🏗️ Onion Architecture";
      "  • Core Domain Layer - Pure business logic";
      "  • Application Layer - Use case orchestration";
      "  • Infrastructure Layer - Database & services";
      "  • Presentation Layer - REST API + React UI";
      EmptyString;
      "💻 Modern Technology Stack";
      "  • Backend: .NET 10 with ASP.NET Core";
      "  • Frontend: React 18 + TypeScript";
      "  • Time-Series DB: InfluxDB (10:1 compression)";
      "  • Metadata DB: MongoDB (flexible storage)";
      "  • API Documentation: Swagger/OpenAPI" ]
    "bullet";;
  (* Slide 7: Live Demo Flow *)
  add_content_slide
    "Live Demo Flow (3 Minutes)"
    [ "1️⃣ Generate a 1kHz Sine Wave (30 sec)";
      "   • Show parameter panel";
      "   • Click generate";
      "   • Watch waveform appear instantly";
      EmptyString;
      "2️⃣ Apply Low-Pass Filter at 500Hz (30 sec)";
      "   • Configure filter parameters";
      "   • Apply processing";
      "   • See both signals side-by-side";
      EmptyString;
      "3️⃣ Test Threshold Detection (20 sec)";
      "   • Set threshold to 0.5";
      "   • Input values and trigger events";
      EmptyString;
      "4️⃣ Demonstrate Persistence (20 sec)";
      "   • Show historical signal selector" ]
    "bullet";;
  (* Slide 8: Use Cases *)
  add_feature_slide
    "Use Cases Across Industries"
    [ ("🔬 Research & Development",
       "Test algorithms, validate filter designs, prototype audio/RF systems");
      ("🎓 Education",
       "Teach signal processing concepts with interactive visual demonstrations");
      ("🏭 Quality Control",
       "Monitor production signals, detect anomalies, analyze historical data");
      ("🎵 Audio Engineering",
       "Synthesize test tones, analyze frequency response, validate filter designs") ];;
  (* Slide 9: Competitive Advantage *)
  slide ← slides_add_slide;
  add_title_bar slide "What Makes Us Different";;
  table ← shapes_add_table slide (length table_data) 3
             (Inches 1) (Inches 1.8) (Inches 8) (Inches 4.5);
  column_set_width table 0 (Inches 2.5);;
  column_set_width table 1 (Inches 2.75);;
  column_set_width table 2 (Inches 2.75);;
  for_enumerate table_data (fun i row_data =>
    for_enumerate row_data (fun j cell_text =>
      cell ← table_cell table i j;
      cell_set_text cell cell_text;;
      if bool_decide (i = 0)%nat then
        (* header row *)
        cell_fill_solid cell;;
        read PRIMARY_COLOR ≫= cell_fill_fore_color_rgb cell;;
        ps ← cell_paragraphs cell;
        for_each ps (fun paragraph =>
          update_cell_paragraph paragraph (set_p_font_size (Pt 18));;
          update_cell_paragraph paragraph (set_p_font_bold true);;
          read WHITE ≫= (fun c => update_cell_paragraph paragraph (set_p_font_color c));;
          update_cell_paragraph paragraph (set_p_alignment CENTER))
      else
        (* data rows *)
        (if bool_decide (j = 0)%nat then
           cell_fill_solid cell;;
           read LIGHT_BG ≫= cell_fill_fore_color_rgb cell
         else mret tt);;
        ps ← cell_paragraphs cell;
        for_each ps (fun paragraph =>
          update_cell_paragraph paragraph (set_p_font_size (Pt 16));;
          read SECONDARY_COLOR ≫= (fun c => update_cell_paragraph paragraph (set_p_font_color c));;
          update_cell_paragraph paragraph (set_p_alignment CENTER))));;
  (* Slide 10: Business Value *)
  add_content_slide
    "Business Value"
    [ "For Organizations:";
      "  📈 Reduce development time by 60%";
      "  💰 Lower training costs with intuitive UI";
      "  🤝 Better collaboration with visual results";
      "  ✅ Built-in quality assurance";
      EmptyString;
      "For Individuals:";
      "  🚀 Learn faster with visual feedback";
      "  🔬 Experiment freely with instant results";
      "  🏆 Professional-grade algorithms";
      "  🔒 Complete control - all data stays local" ]
    "bullet";;
  (* Slide 11: Future Roadmap *)
  add_content_slide
    "Future Roadmap"
    [ "Phase 2 Enhancements:";
      EmptyString;
      "📊 Frequency-domain visualization (FFT spectrum)";
      "💾 Export signals to CSV/JSON";
      "📥 Import real-world signal data";
      "🎛️ Additional filter types (notch, all-pass)";
      "🎤 Real-time audio input streaming";
      "➕ Multi-signal arithmetic operations";
      EmptyString;
      "Your feedback shapes our roadmap!" ]
    "bullet";;
  (* Slide 12: Quick Stats *)
  slide ← slides_add_slide;
  add_title_bar slide "Quick Stats";;
  for_each (zip stats stat_positions) (fun sp =>
    let '((stat, label), (x, y)) := sp in
    (* stat box *)
    box ← shapes_add_shape slide 1 x y (Inches 2.5) (Inches 2);
    fill_solid box;;
    read ACCENT_COLOR ≫= fill_fore_color_rgb box;;
    line_fill_background box;;
    (* stat number *)
    stat_box ← shapes_add_textbox slide x (y + Inches 0.3) (Inches 2.5) (Inches 0.8);
    text_frame_set_text stat_box stat;;
    stat_para ← paragraphs_getitem stat_box 0;
    update_paragraph stat_para (set_p_font_size (Pt 32));;
    update_paragraph stat_para (set_p_font_bold true);;
    read WHITE ≫= (fun c => update_paragraph stat_para (set_p_font_color c));;
    update_paragraph stat_para (set_p_alignment CENTER);;
    (* label *)
    label_box ← shapes_add_textbox slide x (y + Inches 1.2) (Inches 2.5) (Inches 0.6);
    text_frame_set_text label_box label;;
    text_frame_set_word_wrap label_box true;;
    label_para ← paragraphs_getitem label_box 0;
    update_paragraph label_para (set_p_font_size (Pt 16));;
    read WHITE ≫= (fun c => update_paragraph label_para (set_p_font_color c));;
    update_paragraph label_para (set_p_alignment CENTER));;
  (* Slide 13: Call to Action *)
  slide ← slides_add_slide;
  w ← read (fun e => slide_width (prs e));
  h ← read (fun e => slide_height (prs e));
  bg ← shapes_add_shape slide 1 0 0 w h;
  fill_solid bg;;
  read PRIMARY_COLOR ≫= fill_fore_color_rgb bg;;
  line_fill_background bg;;
  (* main heading *)
  heading_box ← shapes_add_textbox slide (Inches 1) (Inches 1.5) (Inches 8) (Inches 1);
  text_frame_set_text heading_box "Ready to Transform Your Workflow?";;
  heading_para ← paragraphs_getitem heading_box 0;
  update_paragraph heading_para (set_p_font_size (Pt 44));;
  update_paragraph heading_para (set_p_font_bold true);;
  read WHITE ≫= (fun c => update_paragraph heading_para (set_p_font_color c));;
  update_paragraph heading_para (set_p_alignment CENTER);;
  (* steps *)
  steps_box ← shapes_add_textbox slide (Inches 2) (Inches 3) (Inches 6) (Inches 2.5);
  text_frame_set_word_wrap steps_box true;;
  for_enumerate steps_text (fun i step =>
    (if bool_decide (0 < i)%nat then text_frame_add_paragraph steps_box
     else mret tt);;
    p ← paragraphs_getitem steps_box i;
    update_paragraph p (set_p_text step);;
    update_paragraph p (set_p_font_size (Pt 28));;
    read WHITE ≫= (fun c => update_paragraph p (set_p_font_color c));;
    update_paragraph p (set_p_alignment CENTER);;
    update_paragraph p (set_p_space_before (Pt 20)));;
  (* contact info *)
  contact_box ← shapes_add_textbox slide (Inches 2) (Inches 6) (Inches 6) (Inches 0.8);
  text_frame_set_text contact_box
    ("Let's discuss how this platform can solve" +:+ String newline
     "your signal processing challenges");;
  contact_para ← paragraphs_getitem contact_box 0;
  update_paragraph contact_para (set_p_font_size (Pt 20));;
  read WHITE ≫= (fun c => update_paragraph contact_para (set_p_font_color c));;
  update_paragraph contact_para (set_p_alignment CENTER);;
  (* Slide 14: Thank You *)
  slide ← slides_add_slide;
  w ← read (fun e => slide_width (prs e));
  h ← read (fun e => slide_height (prs e));
  bg ← shapes_add_shape slide 1 0 0 w h;
  fill_solid bg;;
  read ACCENT_COLOR ≫= fill_fore_color_rgb bg;;
  line_fill_background bg;;
  (* thank you text *)
  thanks_box ← shapes_add_textbox slide (Inches 1) (Inches 2.5) (Inches 8) (Inches 2);
  text_frame_set_text thanks_box "Thank You!";;
  thanks_para ← paragraphs_getitem thanks_box 0;
  update_paragraph thanks_para (set_p_font_size (Pt 72));;
  update_paragraph thanks_para (set_p_font_bold true);;
  read WHITE ≫= (fun c => update_paragraph thanks_para (set_p_font_color c));;
  update_paragraph thanks_para (set_p_alignment CENTER);;
  (* tagline *)
  tagline_box ← shapes_add_textbox slide (Inches 1) (Inches 4.5) (Inches 8) (Inches 1);
  text_frame_set_text tagline_box "Signal Processing Visualization Platform";;
  tagline_para ← paragraphs_getitem tagline_box 0;
  update_paragraph tagline_para (set_p_font_size (Pt 32));;
  read WHITE ≫= (fun c => update_paragraph tagline_para (set_p_font_color c));;
  update_paragraph tagline_para (set_p_alignment CENTER).

(** ** The outside world: the file system and standard output *)

Inductive Event :=
| FileWritten (filename : string) (doc : Presentation)
| Printed (line : string).

(** What a run can observe of the world and what it leaves behind: which
    paths can be written, and the file writes and printed lines so far,
    oldest first. *)
Record World := mkWorld {
  writable : string -> bool;
  events : list Event
}.

Definition emit (ev : Event) (w : World) : World :=
  {| writable := writable w; events := events w ++ [ev] |}.

(** A computation in the world ends normally or with an exception; either
    way the world it leaves is known. *)
Definition IO (A : Type) : Type := World -> result A * World.

#[global] Instance IO_ret : MRet IO := fun A a w => (Ok a, w).

#[global] Instance IO_bind : MBind IO := fun A B f m w =>
  match m w with
  | (Ok a, w') => f a w'
  | (Raise x, w') => (Raise x, w')
  end.

(** [prs.save(filename)] writes the file, or raises when the path cannot be
    written. *)
Definition save (doc : Presentation) (filename : string) : IO unit := fun w =>
  if writable w filename then (Ok tt, emit (FileWritten filename doc) w)
  else (Raise OSError, w).

(** [print(line)] *)
Definition print (line : string) : IO unit := fun w =>
  (Ok tt, emit (Printed line) w).

(** Running statements that only touch the local variables. *)
Definition run_local {A} (m : M A) (e : Env) : IO (A * Env) := fun w =>
  (m e, w).

(** [Presentation()]: the default template, 10 by 7.5 inches, no slides. *)
Definition new_presentation : Presentation :=
  {| slide_width := 9144000; slide_height := 6858000; slides := [] |}.

(** The local variables after lines 13 to 22. *)
Definition initial_env : Env :=
  {| prs := set_slide_size (Inches 10) (Inches 7.5) new_presentation;
     PRIMARY_COLOR := RGB 0 102 204;
     SECONDARY_COLOR := RGB 51 51 51;
     ACCENT_COLOR := RGB 0 176 80;
     LIGHT_BG := RGB 240 248 255;
     WHITE := RGB 255 255 255 |}.

Definition output_filename : string :=
  "Signal_Processing_Platform_Presentation.pptx".

(** [create_presentation()] *)
Definition create_presentation : IO unit :=
  r ← run_local build_slides initial_env;
  save (prs r.2) "Signal_Processing_Platform_Presentation.pptx";;
  print "✅ Presentation created successfully: Signal_Processing_Platform_Presentation.pptx";;
  print "📊 Total slides: 14";;
  print "🎨 Professional blue theme applied";;
  print "⏱️ Optimized for 3-minute delivery".

(** ** Observations on documents and runs *)

(** The text of a paragraph list, of a table and of a shape: one string per
    paragraph, table cells row by row. *)
Definition frame_texts (tf : TextFrame) : list string :=
  map p_text (paragraphs tf).

Definition table_texts (t : Table) : list (list (list string)) :=
  map (map (fun c => frame_texts (cell_text_frame c))) (table_rows t).

Definition shape_texts (sh : Shape) : list string :=
  frame_texts (text_frame sh) ++
  match shape_table sh with
  | Some t => concat (concat (table_texts t))
  | None => []
  end.

Definition document_texts (d : Presentation) : list (list (list string)) :=
  map (map shape_texts) (slides d).

(** The heading of a slide: the first paragraph of its first text box. *)
Definition is_textbox (sh : Shape) : bool :=
  match shape_type sh with
  | TextBox => true
  | _ => false
  end.

Definition slide_heading (s : Slide) : option string :=
  match List.filter is_textbox s with
  | sh :: _ => head (frame_texts (text_frame sh))
  | [] => None
  end.

(** * Values and observations used in the statements *)

(** ** The shapes a builder leaves on its slide, written as values *)

(** The paragraphs of a text frame whose text was set to [t] and whose first
    paragraph was then restyled by [style]. *)
Definition styled_text (style : Paragraph -> Paragraph) (t : string)
    : list Paragraph :=
  match split_newline t with
  | l :: ls => style (text_paragraph l) :: (text_paragraph <$> ls)
  | [] => []
  end.

Definition styled_textbox (x y cx cy : Z) (wrap : option bool)
    (ps : list Paragraph) : Shape :=
  {| shape_type := TextBox; shape_left := x; shape_top := y;
     shape_width := cx; shape_height := cy; shape_fill := FillInherited;
     shape_line := new_line;
     text_frame := {| word_wrap := wrap; paragraphs := ps |};
     shape_table := None |}.

Definition filled_rectangle (x y cx cy : Z) (c : RGBColor) (ln : Line) : Shape :=
  {| shape_type := AutoShape 1; shape_left := x; shape_top := y;
     shape_width := cx; shape_height := cy;
     shape_fill := FillSolid (Some c); shape_line := ln;
     text_frame := new_text_frame; shape_table := None |}.

Definition no_line : Line := {| line_fill := FillBackground; line_width := None |}.

Definition title_bar (e : Env) : Shape :=
  filled_rectangle 0 0 (slide_width (prs e)) (Inches 1) (PRIMARY_COLOR e) no_line.

Definition title_box (e : Env) (title : string) : Shape :=
  styled_textbox (Inches 0.5) (Inches 0.2) (Inches 9) (Inches 0.6) None
    (styled_text
       (fun p => set_p_font_color (WHITE e)
                   (set_p_font_bold true (set_p_font_size (Pt 36) p)))
       title).

Definition title_slide (e : Env) (title subtitle : string) : Slide :=
  [ filled_rectangle 0 0 (slide_width (prs e)) (slide_height (prs e))
      (PRIMARY_COLOR e) no_line;
    styled_textbox (Inches 1) (Inches 2.5) (Inches 8) (Inches 1) None
      (styled_text
         (fun p => set_p_alignment CENTER
                     (set_p_font_color (WHITE e)
                        (set_p_font_bold true (set_p_font_size (Pt 54) p))))
         title);
    styled_textbox (Inches 1) (Inches 4) (Inches 8) (Inches 1) None
      (styled_text
         (fun p => set_p_alignment CENTER
                     (set_p_font_color (WHITE e) (set_p_font_size (Pt 28) p)))
         subtitle) ].

Definition with_paragraphs (ps : list Paragraph) (x : Shape) : Shape :=
  set_text_frame (set_paragraphs ps (text_frame x)) x.

(** The paragraphs of a frame that was fresh before a loop wrote one
    paragraph per item: the frame's own blank paragraph when there is no
    item, else exactly one paragraph per item. *)
Definition filled {A} (g : A -> Paragraph) (items : list A) : list Paragraph :=
  match items with
  | [] => [new_paragraph EmptyString]
  | _ :: _ => g <$> items
  end.

Definition bullet_paragraph (e : Env) (item : string) : Paragraph :=
  {| p_text := appended_text item; p_level := 0; p_font_size := Some (Pt 20);
     p_font_bold := None; p_font_color := Some (SECONDARY_COLOR e);
     p_alignment := None; p_space_before := Some (Pt 12) |}.

Definition column_paragraph (e : Env) (item : string) : Paragraph :=
  {| p_text := appended_text item; p_level := 0; p_font_size := Some (Pt 18);
     p_font_bold := None; p_font_color := Some (SECONDARY_COLOR e);
     p_alignment := None; p_space_before := Some (Pt 10) |}.

(** The body shapes of a content slide, after the title bar and the title. *)
Definition content_body (e : Env) (content_items : list string)
    (layout_type : string) : list Shape :=
  if String.eqb layout_type "bullet" then
    [ styled_textbox (Inches 0.8) (Inches 1.5) (Inches 8.4) (Inches 5.5)
        (Some true) (filled (bullet_paragraph e) content_items) ]
  else if String.eqb layout_type "two_column" then
    [ styled_textbox (Inches 0.8) (Inches 1.5) (Inches 4) (Inches 5.5)
        (Some true)
        (filled (column_paragraph e)
           (take (length content_items / 2) content_items));
      styled_textbox (Inches 5.2) (Inches 1.5) (Inches 4) (Inches 5.5)
        (Some true)
        (filled (column_paragraph e)
           (drop (length content_items / 2) content_items)) ]
  else [].

Definition content_slide (e : Env) (title : string)
    (content_items : list string) (layout_type : string) : Slide :=
  [title_bar e; title_box e title] ++ content_body e content_items layout_type.

(** The three shapes of one feature: the bordered box, the heading and the
    description. *)
Definition feature_shapes (e : Env) (pos : Z * Z) (feature : string * string)
    : list Shape :=
  [ {| shape_type := AutoShape 1; shape_left := pos.1; shape_top := pos.2;
       shape_width := Inches 4; shape_height := Inches 2.5;
       shape_fill := FillSolid (Some (LIGHT_BG e));
       shape_line := {| line_fill := FillSolid (Some (PRIMARY_COLOR e));
                        line_width := Some (Pt 2) |};
       text_frame := new_text_frame; shape_table := None |};
    styled_textbox (pos.1 + Inches 0.2) (pos.2 + Inches 0.2)
      (Inches 4 - Inches 0.4) (Inches 0.5) None
      (styled_text
         (fun p => set_p_font_color (PRIMARY_COLOR e)
                     (set_p_font_bold true (set_p_font_size (Pt 22) p)))
         feature.1);
    styled_textbox (pos.1 + Inches 0.2) (pos.2 + Inches 0.8)
      (Inches 4 - Inches 0.4) (Inches 2.5 - Inches 1) (Some true)
      (styled_text
         (fun p => set_p_font_color (SECONDARY_COLOR e)
                     (set_p_font_size (Pt 16) p))
         feature.2) ].

Definition feature_slide (e : Env) (title : string)
    (features : list (string * string)) : Slide :=
  [title_bar e; title_box e title] ++
  concat (zip_with (feature_shapes e) feature_positions (take 4 features)).

(** ** The run of the script *)

(** The document after the last slide statement of the script. *)
Definition final_document : Presentation :=
  Eval vm_compute in
    match build_slides initial_env with
    | Ok (_, e) => prs e
    | Raise _ => prs initial_env
    end.

(** The four lines the script prints after saving. *)
Definition confirmation_lines : list string :=
  [ "✅ Presentation created successfully: Signal_Processing_Platform_Presentation.pptx";
    "📊 Total slides: 14";
    "🎨 Professional blue theme applied";
    "⏱️ Optimized for 3-minute delivery" ].

(** The document last written under [name], and the lines printed. *)
Definition written_as (name : string) (ev : Event) : option Presentation :=
  match ev with
  | FileWritten n d => if String.eqb n name then Some d else None
  | Printed _ => None
  end.

Definition saved_document (name : string) (evs : list Event)
    : option Presentation :=
  list.last (omap (written_as name) evs).

Definition printed_line (ev : Event) : option string :=
  match ev with
  | Printed l => Some l
  | FileWritten _ _ => None
  end.

Definition printed_lines (evs : list Event) : list string :=
  omap printed_line evs.

(** A world in which every path can be written and nothing has happened. *)
Definition fresh_world : World :=
  {| writable := fun _ => true; events := [] |}.

(** The text of a frame as the library's [text] property reads it: the
    paragraphs joined by line feeds. *)
Definition frame_text (tf : TextFrame) : string :=
  String.concat (String newline EmptyString) (frame_texts tf).

Definition cell_text (c : Cell) : string := frame_text (cell_text_frame c).

(** The items written into a text box: the texts of the paragraphs that a
    loop of the script has styled (a paragraph the library created and the
    script never touched has no font size). *)
Definition is_item_paragraph (p : Paragraph) : bool :=
  match p_font_size p with
  | Some _ => true
  | None => false
  end.

Definition item_texts (sh : Shape) : list string :=
  map p_text (List.filter is_item_paragraph (paragraphs (text_frame sh))).

Definition is_autoshape (sh : Shape) : bool :=
  match shape_type sh with
  | AutoShape _ => true
  | _ => false
  end.

Definition shape_position (sh : Shape) : Z * Z := (shape_left sh, shape_top sh).

(** A builder call that succeeds, returns the new slide, and changes the
    variables of [create_presentation] only by one more slide at the end of
    the document. *)
Definition appends_one_slide (m : M SlideRef) : Prop :=
  forall e, exists s e',
    m e = Ok (length (slides (prs e)), e') /\
    slides (prs e') = slides (prs e) ++ [s] /\
    slide_width (prs e') = slide_width (prs e) /\
    slide_height (prs e') = slide_height (prs e) /\
    PRIMARY_COLOR e' = PRIMARY_COLOR e /\
    SECONDARY_COLOR e' = SECONDARY_COLOR e /\
    ACCENT_COLOR e' = ACCENT_COLOR e /\
    LIGHT_BG e' = LIGHT_BG e /\
    WHITE e' = WHITE e.

(** ** Geometry *)

(** The shape has a non-negative size and lies within a canvas of width [w]
    and height [h]. *)
Definition within_canvas (w h : Z) (sh : Shape) : bool :=
  (0 <=? shape_left sh) && (0 <=? shape_top sh) &&
  (0 <=? shape_width sh) && (0 <=? shape_height sh) &&
  (shape_left sh + shape_width sh <=? w) &&
  (shape_top sh + shape_height sh <=? h).

(** The rectangle of [inner] lies within the rectangle of [outer]. *)
Definition inside (inner outer : Shape) : bool :=
  (shape_left outer <=? shape_left inner) &&
  (shape_top outer <=? shape_top inner) &&
  (shape_left inner + shape_width inner <=?
   shape_left outer + shape_width outer) &&
  (shape_top inner + shape_height inner <=?
   shape_top outer + shape_height outer).

(** The rectangles of two shapes do not overlap. *)
Definition disjoint_shapes (a b : Shape) : bool :=
  (shape_left a + shape_width a <=? shape_left b) ||
  (shape_left b + shape_width b <=? shape_left a) ||
  (shape_top a + shape_height a <=? shape_top b) ||
  (shape_top b + shape_height b <=? shape_top a).

(** The three shapes of one feature, as a check: a box, and a heading and a
    description that lie within the box and do not overlap. *)
Definition feature_group_ok (g : list Shape) : bool :=
  match g with
  | [box; heading; desc] =>
      is_autoshape box && inside heading box && inside desc box &&
      disjoint_shapes heading desc
  | _ => false
  end.

(** No two shapes of the list overlap. *)
Fixpoint pairwise_disjoint (l : list Shape) : bool :=
  match l with
  | [] => true
  | x :: l' => forallb (disjoint_shapes x) l' && pairwise_disjoint l'
  end.

(** The character style of a paragraph: font size, bold flag, colour and
    alignment. *)
Definition paragraph_style (p : Paragraph)
    : option Z * option bool * option RGBColor * option PP_ALIGN :=
  (p_font_size p, p_font_bold p, p_font_color p, p_alignment p).

(** A world in which no path can be written and nothing has happened. *)
Definition read_only_world : World :=
  {| writable := fun _ => false; events := [] |}.

(** * Reasoning about the store *)

(** ** Strings *)

Lemma split_newline_cons (s : string) :
  exists l ls, split_newline s = l :: ls.
Proof.
  induction s as [|c s [l [ls IH]]]; simpl.
  - by exists EmptyString, [].
  - destruct (Ascii.eqb c newline).
    + by exists EmptyString, (split_newline s).
    + rewrite IH. by exists (String c l), ls.
Qed.

(** ** Lists updated at their last position *)

Lemma list_insert_last {A} (l : list A) (x y : A) :
  <[length l := y]> (l ++ [x]) = l ++ [y].
Proof. rewrite insert_app_r_alt by done. by rewrite Nat.sub_diag. Qed.

Lemma list_lookup_last {A} (l : list A) (x : A) :
  (l ++ [x]) !! length l = Some x.
Proof. by apply list_lookup_middle. Qed.

(** ** One step at the newest slide

    Every statement of a builder works on the slide the builder has just
    added, and on the shape it has just added to it.  The lemmas of this
    section run one library call in a store whose last slide is [s], or whose
    last slide ends with the shape [x]. *)

Section last_slide.
Context (pre : list Slide) (e : Env).

Lemma set_slides_twice ss ss' : set_slides ss (set_slides ss' e) = set_slides ss e.
Proof. reflexivity. Qed.

Lemma update_slide_last {A} (op : Slide -> result (A * Slide)) (s : Slide) :
  update_slide (length pre) op (set_slides (pre ++ [s]) e) =
  match op s with
  | Ok (a, s') => Ok (a, set_slides (pre ++ [s']) e)
  | Raise x => Raise x
  end.
Proof.
  unfold update_slide. cbn [prs slides set_slides].
  rewrite list_lookup_last.
  destruct (op s) as [[a s']|x]; [|done].
  by rewrite list_insert_last.
Qed.

Lemma append_shape_last (sh : Shape) (s : Slide) :
  append_shape sh (length pre) (set_slides (pre ++ [s]) e) =
  Ok ((length pre, length s), set_slides (pre ++ [s ++ [sh]]) e).
Proof.
  unfold append_shape, mbind, M_bind. by rewrite update_slide_last.
Qed.

Lemma update_shape_last (op : Shape -> result Shape) (sp : Slide) (x : Shape) :
  update_shape (length pre, length sp) op (set_slides (pre ++ [sp ++ [x]]) e) =
  match op x with
  | Ok x' => Ok (tt, set_slides (pre ++ [sp ++ [x']]) e)
  | Raise r => Raise r
  end.
Proof.
  unfold update_shape. rewrite update_slide_last. cbn [fst snd].
  rewrite list_lookup_last.
  destruct (op x) as [x'|r]; [|done].
  by rewrite list_insert_last.
Qed.

Lemma read_shape_last (sp : Slide) (x : Shape) :
  read_shape (length pre, length sp) (set_slides (pre ++ [sp ++ [x]]) e) =
  Ok (x, set_slides (pre ++ [sp ++ [x]]) e).
Proof.
  unfold read_shape. cbn [prs slides set_slides fst snd].
  rewrite list_lookup_last. cbn [mbind option_bind].
  by rewrite list_lookup_last.
Qed.

Lemma shapes_add_shape_last (t x y cx cy : Z) (s : Slide) :
  shapes_add_shape (length pre) t x y cx cy (set_slides (pre ++ [s]) e) =
  Ok ((length pre, length s),
      set_slides (pre ++ [s ++ [new_autoshape t x y cx cy]]) e).
Proof. apply append_shape_last. Qed.

Lemma shapes_add_textbox_last (x y cx cy : Z) (s : Slide) :
  shapes_add_textbox (length pre) x y cx cy (set_slides (pre ++ [s]) e) =
  Ok ((length pre, length s),
      set_slides (pre ++ [s ++ [new_textbox x y cx cy]]) e).
Proof. apply append_shape_last. Qed.

Context (sp : Slide).
Local Abbreviation r := (length pre, length sp).
Local Abbreviation St x := (set_slides (pre ++ [sp ++ [x]]) e).

Lemma fill_solid_last x :
  fill_solid r (St x) = Ok (tt, St (set_shape_fill (FillSolid None) x)).
Proof. unfold fill_solid. by rewrite update_shape_last. Qed.

Lemma fill_fore_color_rgb_last c x :
  fill_fore_color_rgb r c (St x) =
  match shape_fill x with
  | FillSolid _ => Ok (tt, St (set_shape_fill (FillSolid (Some c)) x))
  | _ => Raise TypeError
  end.
Proof.
  unfold fill_fore_color_rgb. rewrite update_shape_last.
  by destruct (shape_fill x).
Qed.

Lemma line_fill_background_last x :
  line_fill_background r (St x) =
  Ok (tt, St (set_shape_line
                {| line_fill := FillBackground;
                   line_width := line_width (shape_line x) |} x)).
Proof. unfold line_fill_background. by rewrite update_shape_last. Qed.

Lemma line_color_rgb_last c x :
  line_color_rgb r c (St x) =
  Ok (tt, St (set_shape_line
                {| line_fill := FillSolid (Some c);
                   line_width := line_width (shape_line x) |} x)).
Proof. unfold line_color_rgb. by rewrite update_shape_last. Qed.

Lemma line_set_width_last w x :
  line_set_width r w (St x) =
  Ok (tt, St (set_shape_line
                {| line_fill := line_fill (shape_line x);
                   line_width := Some w |} x)).
Proof. unfold line_set_width. by rewrite update_shape_last. Qed.

Lemma text_frame_set_text_last t x :
  text_frame_set_text r t (St x) =
  Ok (tt, St (set_text_frame (frame_with_text t (text_frame x)) x)).
Proof. unfold text_frame_set_text. by rewrite update_shape_last. Qed.

Lemma text_frame_set_word_wrap_last b x :
  text_frame_set_word_wrap r b (St x) =
  Ok (tt, St (set_text_frame (set_word_wrap b (text_frame x)) x)).
Proof. unfold text_frame_set_word_wrap. by rewrite update_shape_last. Qed.

Lemma text_frame_add_paragraph_last x :
  text_frame_add_paragraph r (St x) =
  Ok (tt, St (set_text_frame
                (set_paragraphs
                   (paragraphs (text_frame x) ++ [new_paragraph EmptyString])
                   (text_frame x)) x)).
Proof. unfold text_frame_add_paragraph. by rewrite update_shape_last. Qed.

Lemma paragraphs_getitem_last i x :
  paragraphs_getitem r i (St x) =
  if bool_decide (i < length (paragraphs (text_frame x)))%nat
  then Ok ((r, i), St x) else Raise IndexError.
Proof.
  unfold paragraphs_getitem, mbind, M_bind. rewrite read_shape_last.
  by case_bool_decide.
Qed.

Lemma update_paragraph_last i f x :
  update_paragraph (r, i) f (St x) =
  match paragraphs (text_frame x) !! i with
  | None => Raise StaleReference
  | Some q =>
      Ok (tt, St (set_text_frame
                    (set_paragraphs (<[i := f q]> (paragraphs (text_frame x)))
                       (text_frame x)) x))
  end.
Proof.
  unfold update_paragraph. cbn [fst snd]. rewrite update_shape_last.
  by destruct (paragraphs (text_frame x) !! i).
Qed.
End last_slide.

Lemma set_text_frame_twice tf tf' x :
  set_text_frame tf (set_text_frame tf' x) = set_text_frame tf x.
Proof. reflexivity. Qed.

Lemma set_paragraphs_twice ps ps' tf :
  set_paragraphs ps (set_paragraphs ps' tf) = set_paragraphs ps tf.
Proof. reflexivity. Qed.

Lemma read_eq {A} (f : Env -> A) (e : Env) : read f e = Ok (f e, e).
Proof. reflexivity. Qed.

Lemma slide_width_set_slides ss e :
  slide_width (prs (set_slides ss e)) = slide_width (prs e).
Proof. reflexivity. Qed.

Lemma slide_height_set_slides ss e :
  slide_height (prs (set_slides ss e)) = slide_height (prs e).
Proof. reflexivity. Qed.

Lemma PRIMARY_COLOR_set_slides ss e :
  PRIMARY_COLOR (set_slides ss e) = PRIMARY_COLOR e.
Proof. reflexivity. Qed.

Lemma SECONDARY_COLOR_set_slides ss e :
  SECONDARY_COLOR (set_slides ss e) = SECONDARY_COLOR e.
Proof. reflexivity. Qed.

Lemma ACCENT_COLOR_set_slides ss e :
  ACCENT_COLOR (set_slides ss e) = ACCENT_COLOR e.
Proof. reflexivity. Qed.

Lemma LIGHT_BG_set_slides ss e : LIGHT_BG (set_slides ss e) = LIGHT_BG e.
Proof. reflexivity. Qed.

Lemma WHITE_set_slides ss e : WHITE (set_slides ss e) = WHITE e.
Proof. reflexivity. Qed.

Create Rewrite HintDb store.

#[local] Hint Rewrite
  @read_eq shapes_add_shape_last shapes_add_textbox_last fill_solid_last
  fill_fore_color_rgb_last line_fill_background_last line_color_rgb_last
  line_set_width_last text_frame_set_text_last text_frame_set_word_wrap_last
  text_frame_add_paragraph_last paragraphs_getitem_last update_paragraph_last
  @list_lookup_last @list_insert_last set_text_frame_twice set_paragraphs_twice
  slide_width_set_slides slide_height_set_slides PRIMARY_COLOR_set_slides
  SECONDARY_COLOR_set_slides ACCENT_COLOR_set_slides LIGHT_BG_set_slides
  WHITE_set_slides : store.

#[local] Arguments set_slides : simpl never.
#[local] Arguments read : simpl never.
#[local] Arguments shapes_add_shape : simpl never.
#[local] Arguments shapes_add_textbox : simpl never.
#[local] Arguments fill_solid : simpl never.
#[local] Arguments fill_fore_color_rgb : simpl never.
#[local] Arguments line_fill_background : simpl never.
#[local] Arguments line_color_rgb : simpl never.
#[local] Arguments line_set_width : simpl never.
#[local] Arguments text_frame_set_text : simpl never.
#[local] Arguments text_frame_set_word_wrap : simpl never.
#[local] Arguments text_frame_add_paragraph : simpl never.
#[local] Arguments paragraphs_getitem : simpl never.
#[local] Arguments update_paragraph : simpl never.
#[local] Arguments for_enumerate_from : simpl never.
#[local] Arguments for_enumerate : simpl never.
#[local] Arguments add_title_bar : simpl never.
#[local] Arguments Inches : simpl never.
#[local] Arguments Pt : simpl never.

(** Run the next statements of a builder in a store in the above form. *)
Ltac run :=
  repeat (progress (unfold mbind, M_bind, mret, M_ret; cbn;
                    autorewrite with store;
                    rewrite ?bool_decide_eq_true_2
                      by (rewrite ?length_app; simpl; lia);
                    rewrite ?bool_decide_eq_false_2 by (simpl; lia))).

(** ** The builders in closed form *)

Lemma add_title_bar_last pre s e title :
  add_title_bar (length pre) title (set_slides (pre ++ [s]) e) =
  Ok (tt, set_slides (pre ++ [s ++ [title_bar e; title_box e title]]) e).
Proof.
  unfold add_title_bar, title_box, styled_text.
  destruct (split_newline_cons title) as (l & ls & Hl).
  run. unfold frame_with_text. rewrite Hl. run.
  by rewrite <- app_assoc.
Qed.

Lemma add_title_slide_eq title subtitle e :
  add_title_slide title subtitle e =
  Ok (length (slides (prs e)),
      set_slides (slides (prs e) ++ [title_slide e title subtitle]) e).
Proof.
  unfold add_title_slide, slides_add_slide.
  destruct (split_newline_cons title) as (l & ls & Hl).
  destruct (split_newline_cons subtitle) as (l' & ls' & Hl').
  unfold mbind at 1, M_bind at 1.
  change (title_slide e title subtitle) with ([] ++ title_slide e title subtitle).
  generalize (@nil Shape). intros s.
  unfold title_slide, styled_text.
  run. unfold frame_with_text. rewrite Hl. run.
  unfold frame_with_text. rewrite Hl'. run.
  by rewrite <- !app_assoc.
Qed.

(** ** The loops that fill a text frame *)

Lemma with_paragraphs_id x : with_paragraphs (paragraphs (text_frame x)) x = x.
Proof. by destruct x as [? ? ? ? ? ? ? [] ?]. Qed.

Lemma for_enumerate_from_cons {A} i (x : A) l body :
  for_enumerate_from i (x :: l) body = (body i x ;; for_enumerate_from (S i) l body).
Proof. reflexivity. Qed.

Section fill_loop.
Context (pre : list Slide) (e : Env) (sp : Slide).
Context (body : nat -> string -> M unit) (g : string -> Paragraph).

Local Abbreviation St x := (set_slides (pre ++ [sp ++ [x]]) e).

Hypothesis body_first : forall x item,
  paragraphs (text_frame x) = [new_paragraph EmptyString] ->
  body 0%nat item (St x) = Ok (tt, St (with_paragraphs [g item] x)).

Hypothesis body_next : forall x item,
  (0 < length (paragraphs (text_frame x)))%nat ->
  body (length (paragraphs (text_frame x))) item (St x) =
  Ok (tt, St (with_paragraphs (paragraphs (text_frame x) ++ [g item]) x)).

Lemma for_enumerate_from_fill items : forall x,
  (0 < length (paragraphs (text_frame x)))%nat ->
  for_enumerate_from (length (paragraphs (text_frame x))) items body (St x) =
  Ok (tt, St (with_paragraphs (paragraphs (text_frame x) ++ (g <$> items)) x)).
Proof.
  induction items as [|item items IH]; intros x Hx.
  - cbn [fmap list_fmap]. by rewrite app_nil_r, with_paragraphs_id.
  - rewrite for_enumerate_from_cons. unfold mbind, M_bind.
    rewrite body_next by done.
    set (x' := with_paragraphs _ x).
    replace (S (length (paragraphs (text_frame x))))
      with (length (paragraphs (text_frame x'))).
    2: { subst x'. cbn. rewrite length_app. simpl. lia. }
    rewrite IH.
    2: { subst x'. cbn. rewrite length_app. simpl. lia. }
    subst x'. cbn [with_paragraphs text_frame set_text_frame paragraphs set_paragraphs].
    by rewrite <- app_assoc.
Qed.

Lemma for_enumerate_fill items x :
  paragraphs (text_frame x) = [new_paragraph EmptyString] ->
  for_enumerate items body (St x) = Ok (tt, St (with_paragraphs (filled g items) x)).
Proof.
  intros Hx. destruct items as [|item items]; unfold for_enumerate.
  - cbn [filled]. by rewrite <- Hx, with_paragraphs_id.
  - rewrite for_enumerate_from_cons. unfold mbind, M_bind.
    rewrite body_first by done.
    set (x' := with_paragraphs _ x).
    change 1%nat with (length (paragraphs (text_frame x'))).
    rewrite for_enumerate_from_fill by (cbn; lia).
    by subst x'.
Qed.
End fill_loop.

(** ** [add_content_slide] *)

Lemma add_content_slide_eq title content_items layout_type e :
  add_content_slide title content_items layout_type e =
  Ok (length (slides (prs e)),
      set_slides
        (slides (prs e) ++ [content_slide e title content_items layout_type]) e).
Proof.
  unfold add_content_slide, slides_add_slide.
  unfold mbind at 1, M_bind at 1.
  change (content_slide e title content_items layout_type)
    with ([] ++ content_slide e title content_items layout_type).
  generalize (@nil Shape). intros s.
  unfold mbind at 1, M_bind at 1. unfold mbind at 1, M_bind at 1.
  rewrite add_title_bar_last.
  unfold content_slide, content_body.
  rewrite app_assoc.
  generalize (s ++ [title_bar e; title_box e title]). clear s. intros s.
  destruct (String.eqb layout_type "bullet").
  - run.
    rewrite (for_enumerate_fill _ _ _ _ (bullet_paragraph e)).
    + reflexivity.
    + intros x item Hx. run. rewrite !Hx. run. rewrite !Hx. by run.
    + intros x item Hx. by run.
    + done.
  - destruct (String.eqb layout_type "two_column").
    + run.
      rewrite (for_enumerate_fill _ _ _ _ (column_paragraph e)).
      * run.
        rewrite (for_enumerate_fill _ _ _ _ (column_paragraph e)).
        -- run. by rewrite <- app_assoc.
        -- intros x item Hx. run. rewrite !Hx. run. rewrite !Hx. by run.
        -- intros x item Hx. by run.
        -- done.
      * intros x item Hx. run. rewrite !Hx. run. rewrite !Hx. by run.
      * intros x item Hx. by run.
      * done.
    + run. by rewrite app_nil_r.
Qed.

(** ** Loops that append shapes to the newest slide *)

Section append_loop.
Context {A : Type} (pre : list Slide) (e : Env).
Context (body : nat -> A -> M unit) (h : nat -> A -> list Shape).
Context (bound : nat).

Hypothesis body_step : forall i item s,
  (i < bound)%nat ->
  body i item (set_slides (pre ++ [s]) e) =
  Ok (tt, set_slides (pre ++ [s ++ h i item]) e).

Lemma for_enumerate_from_append items : forall i s,
  (i + length items <= bound)%nat ->
  for_enumerate_from i items body (set_slides (pre ++ [s]) e) =
  Ok (tt, set_slides
            (pre ++ [s ++ concat (zip_with h (seq i (length items)) items)]) e).
Proof.
  induction items as [|item items IH]; intros i s Hi.
  - cbn. by rewrite app_nil_r.
  - rewrite for_enumerate_from_cons. unfold mbind, M_bind.
    cbn [length] in Hi.
    rewrite body_step by lia. rewrite IH by lia.
    cbn [length seq zip_with concat]. by rewrite app_assoc.
Qed.
End append_loop.

(** ** [add_feature_slide] *)

Lemma add_feature_slide_eq title features e :
  add_feature_slide title features e =
  Ok (length (slides (prs e)),
      set_slides (slides (prs e) ++ [feature_slide e title features]) e).
Proof.
  unfold add_feature_slide, slides_add_slide.
  unfold mbind at 1, M_bind at 1.
  change (feature_slide e title features)
    with ([] ++ feature_slide e title features).
  generalize (@nil Shape). intros s.
  unfold mbind at 1, M_bind at 1. unfold mbind at 1, M_bind at 1.
  rewrite add_title_bar_last.
  unfold feature_slide. rewrite app_assoc.
  generalize (s ++ [title_bar e; title_box e title]). clear s. intros s.
  cbv zeta. unfold for_enumerate.
  rewrite (for_enumerate_from_append _ _ _
             (fun i feature =>
                match feature_positions !! i with
                | Some pos => feature_shapes e pos feature
                | None => []
                end) 4).
  - cbn [mret M_ret]. do 3 f_equal. f_equal. f_equal.
    destruct features as [|f1 [|f2 [|f3 [|f4 fs]]]]; reflexivity.
  - intros i [ft fd] s' Hi.
    destruct (split_newline_cons ft) as (l & ls & Hl).
    destruct (split_newline_cons fd) as (l' & ls' & Hl').
    unfold feature_shapes, styled_text.
    do 4 (destruct i as [|i]; [
      run; unfold frame_with_text; rewrite Hl; run;
      unfold frame_with_text; rewrite Hl'; run;
      by rewrite <- !app_assoc | ]).
    lia.
  - rewrite length_take. lia.
Qed.

(** * The run of [create_presentation] *)

Lemma build_slides_initial_env :
  exists e, build_slides initial_env = Ok (tt, e) /\ prs e = final_document.
Proof. eexists. split; vm_compute; reflexivity. Qed.

Lemma create_presentation_writable (w : World) :
  writable w output_filename = true ->
  create_presentation w =
  (Ok tt,
   {| writable := writable w;
      events := events w ++
                FileWritten output_filename final_document ::
                (Printed <$> confirmation_lines) |}).
Proof.
  intros Hw. destruct build_slides_initial_env as (e & He & Hdoc).
  unfold create_presentation, mbind, IO_bind, run_local.
  rewrite He. cbn [snd]. rewrite Hdoc.
  unfold save. fold output_filename. rewrite Hw.
  unfold print, emit. cbn [writable events].
  by rewrite <- !app_assoc.
Qed.

Lemma create_presentation_unwritable (w : World) :
  writable w output_filename = false ->
  create_presentation w = (Raise OSError, w).
Proof.
  intros Hw. destruct build_slides_initial_env as (e & He & Hdoc).
  unfold create_presentation, mbind, IO_bind, run_local.
  rewrite He. cbn [snd]. unfold save. fold output_filename. by rewrite Hw.
Qed.

Lemma saved_document_after_run (evs : list Event) (lines : list string) d :
  saved_document output_filename
    (evs ++ FileWritten output_filename d :: (Printed <$> lines)) = Some d.
Proof.
  unfold saved_document. rewrite omap_app. cbn [omap list_omap written_as].
  rewrite String.eqb_refl.
  assert (omap (written_as output_filename) (Printed <$> lines) = []) as ->.
  { induction lines as [|l lines IH]; [done|]. cbn. by rewrite IH. }
  apply last_snoc.
Qed.

Lemma printed_lines_after_run (evs : list Event) (lines : list string) n d :
  printed_lines (evs ++ FileWritten n d :: (Printed <$> lines)) =
  printed_lines evs ++ lines.
Proof.
  unfold printed_lines. rewrite omap_app. f_equal. cbn.
  induction lines as [|l lines IH]; [done|]. cbn. by rewrite IH.
Qed.

(** * Properties *)

Lemma item_texts_filled (g : string -> Paragraph) (f : string -> string)
    (items : list string) x y cx cy wrap :
  (forall item, p_text (g item) = f item) ->
  (forall item, is_item_paragraph (g item) = true) ->
  item_texts (styled_textbox x y cx cy wrap (filled g items)) = f <$> items.
Proof.
  intros Htext Hitem. unfold item_texts. cbn [text_frame styled_textbox paragraphs].
  destruct items as [|item items]; [done|]. unfold filled.
  generalize (item :: items). clear item items.
  intros items. induction items as [|item items IH]; [done|].
  cbn [fmap list_fmap List.filter]. rewrite Hitem. cbn [map].
  by rewrite Htext, IH.
Qed.

(** C1: running the entry point in a world where the output path can be
    written saves a document of exactly 14 slides whose headings are, in
    order, those of the title, challenge, features, generation, processing,
    architecture, demo-flow, use-cases, comparison-table, business-value,
    roadmap, stats, call-to-action and thank-you slides. *)
Theorem C1_fourteen_slides_in_order (w : World) :
  writable w output_filename = true ->
  exists w' doc,
    create_presentation w = (Ok tt, w') /\
    saved_document output_filename (events w') = Some doc /\
    length (slides doc) = 14%nat /\
    map slide_heading (slides doc) =
    [ Some "Signal Processing Visualization Platform";
      Some "The Challenge";
      Some "Key Features";
      Some "Multi-Signal Generation";
      Some "Real-Time Signal Processing";
      Some "Enterprise-Grade Architecture";
      Some "Live Demo Flow (3 Minutes)";
      Some "Use Cases Across Industries";
      Some "What Makes Us Different";
      Some "Business Value";
      Some "Future Roadmap";
      Some "Quick Stats";
      Some "Ready to Transform Your Workflow?";
      Some "Thank You!" ].
Proof.
  intros Hw. rewrite (create_presentation_writable w Hw).
  eexists _, final_document. split; [reflexivity|].
  cbn [events]. rewrite saved_document_after_run.
  split; [reflexivity|]. split; vm_compute; reflexivity.
Qed.

Lemma C1_fourteen_slides_in_order_witness :
  writable fresh_world output_filename = true /\
  exists w' doc,
    create_presentation fresh_world = (Ok tt, w') /\
    saved_document output_filename (events w') = Some doc /\
    length (slides doc) = 14%nat /\
    map slide_heading (slides doc) =
    [ Some "Signal Processing Visualization Platform";
      Some "The Challenge";
      Some "Key Features";
      Some "Multi-Signal Generation";
      Some "Real-Time Signal Processing";
      Some "Enterprise-Grade Architecture";
      Some "Live Demo Flow (3 Minutes)";
      Some "Use Cases Across Industries";
      Some "What Makes Us Different";
      Some "Business Value";
      Some "Future Roadmap";
      Some "Quick Stats";
      Some "Ready to Transform Your Workflow?";
      Some "Thank You!" ].
Proof.
  split; [reflexivity|].
  apply (C1_fourteen_slides_in_order fresh_world). reflexivity.
Defined.

(** C2: in two-column mode the content-slide builder adds, after the title
    bar and the title, a left and a right text box.  The left box holds one
    paragraph for each of the first [N / 2] items of the input, in order,
    and the right box one paragraph for each of the remaining [N - N / 2]
    items, in order; the text of each paragraph is its item as [p.text = item]
    stores it. *)
Theorem C2_two_column_split (title : string) (content_items : list string)
    (e : Env) :
  exists e' left_box right_box,
    add_content_slide title content_items "two_column" e =
      Ok (length (slides (prs e)), e') /\
    slides (prs e') =
      slides (prs e) ++ [[title_bar e; title_box e title; left_box; right_box]] /\
    shape_type left_box = TextBox /\
    shape_type right_box = TextBox /\
    shape_position left_box = (Inches 0.8, Inches 1.5) /\
    shape_position right_box = (Inches 5.2, Inches 1.5) /\
    paragraphs (text_frame left_box) =
      filled (column_paragraph e) (take (length content_items / 2) content_items) /\
    paragraphs (text_frame right_box) =
      filled (column_paragraph e) (drop (length content_items / 2) content_items) /\
    item_texts left_box =
      appended_text <$> take (length content_items / 2) content_items /\
    item_texts right_box =
      appended_text <$> drop (length content_items / 2) content_items /\
    length (item_texts left_box) = (length content_items / 2)%nat /\
    length (item_texts right_box) =
      (length content_items - length content_items / 2)%nat.
Proof.
  rewrite add_content_slide_eq. unfold content_slide, content_body.
  cbn [String.eqb Ascii.eqb Bool.eqb].
  eexists _, _, _. split; [reflexivity|]. split; [reflexivity|].
  do 6 (split; [reflexivity|]).
  rewrite !(item_texts_filled _ appended_text) by done.
  do 2 (split; [reflexivity|]).
  rewrite !length_fmap, length_take, length_drop.
  pose proof (Nat.Div0.div_le_upper_bound (length content_items) 2 (length content_items)).
  split; lia.
Qed.

(** C2, the example of the specification: seven items give three
    paragraphs on the left and four on the right. *)
Example two_column_seven_items :
  exists e' left_box right_box,
    add_content_slide "T" ["a"; "b"; "c"; "d"; "e"; "f"; "g"] "two_column"
      initial_env = Ok (0%nat, e') /\
    slides (prs e') =
      [[title_bar initial_env; title_box initial_env "T"; left_box; right_box]] /\
    frame_texts (text_frame left_box) = ["a"; "b"; "c"] /\
    frame_texts (text_frame right_box) = ["d"; "e"; "f"; "g"].
Proof.
  rewrite add_content_slide_eq.
  eexists _, _, _. split; [reflexivity|]. split; [reflexivity|].
  split; reflexivity.
Qed.

Lemma zip_with_feature_positions {B} (h : Z * Z -> string * string -> B)
    (features : list (string * string)) :
  zip_with h feature_positions (take 4 features) =
  zip_with h feature_positions features.
Proof. by destruct features as [|f1 [|f2 [|f3 [|f4 fs]]]]. Qed.

(** C3: the feature-grid builder adds, after the title bar and the title,
    one box (with its heading and description) per feature pair for the
    first four pairs only, at the grid positions top-left, top-right,
    bottom-left, bottom-right in this order; later pairs leave no shape, and
    with [k < 4] pairs the slide has exactly [k] boxes, at the first [k]
    positions, and no shape for the other positions. *)
Theorem C3_feature_grid_first_four (title : string)
    (features : list (string * string)) (e : Env) :
  exists e' s,
    add_feature_slide title features e = Ok (length (slides (prs e)), e') /\
    slides (prs e') = slides (prs e) ++ [s] /\
    s = [title_bar e; title_box e title] ++
        concat (zip_with (feature_shapes e) feature_positions features) /\
    length s = (2 + 3 * (length features `min` 4))%nat /\
    map shape_position (List.filter is_autoshape s) =
      (0, 0) :: take (length features) feature_positions /\
    feature_positions =
      [ (Inches 0.8, Inches 1.5); (Inches 5.2, Inches 1.5);
        (Inches 0.8, Inches 4.2); (Inches 5.2, Inches 4.2) ].
Proof.
  rewrite add_feature_slide_eq. unfold feature_slide.
  rewrite zip_with_feature_positions.
  eexists _, _. split; [reflexivity|]. split; [reflexivity|].
  split; [reflexivity|]. split; [|split; [|reflexivity]].
  - destruct features as [|f1 [|f2 [|f3 [|f4 fs]]]]; try reflexivity.
    cbn [length]. rewrite (Nat.min_r _ 4) by lia. reflexivity.
  - destruct features as [|f1 [|f2 [|f3 [|f4 fs]]]]; try reflexivity.
    cbn [length]. rewrite (take_ge feature_positions) by (cbn; lia).
    reflexivity.
Qed.

(** C4: the ninth slide of the document the script builds is the
    comparison-table slide; its table has exactly 7 rows of 3 cells (and 3
    columns), row 0 reads "Feature", "Traditional Tools", "Our Platform" and
    row 1 reads "Learning Curve", "Weeks", "✅ Minutes". *)
Theorem C4_comparison_table :
  exists e s frame t,
    build_slides initial_env = Ok (tt, e) /\
    slides (prs e) !! 8%nat = Some s /\
    slide_heading s = Some "What Makes Us Different" /\
    list.last s = Some frame /\
    shape_table frame = Some t /\
    length (table_rows t) = 7%nat /\
    map length (table_rows t) = replicate 7 3%nat /\
    length (column_widths t) = 3%nat /\
    map (map cell_text) (table_rows t) !! 0%nat =
      Some ["Feature"; "Traditional Tools"; "Our Platform"] /\
    map (map cell_text) (table_rows t) !! 1%nat =
      Some ["Learning Curve"; "Weeks"; "✅ Minutes"].
Proof.
  destruct build_slides_initial_env as (e & He & Hdoc).
  exists e. eexists _, _, _. split; [exact He|]. rewrite Hdoc.
  split; [vm_compute; reflexivity|].
  do 7 (split; [vm_compute; reflexivity|]).
  vm_compute; reflexivity.
Qed.

(** C5, as the specification states it, fails: after a successful save in
    the fresh world the script has printed four lines, not three. *)
Lemma C5_three_lines_counterexample :
  writable fresh_world output_filename = true /\
  (create_presentation fresh_world).1 = Ok tt /\
  length (printed_lines (events (create_presentation fresh_world).2)) <> 3%nat.
Proof.
  split; [reflexivity|].
  rewrite (create_presentation_writable fresh_world eq_refl).
  split; [reflexivity|]. vm_compute. discriminate.
Qed.

(** C5, amended: after a successful save the run ends normally and has
    printed exactly four fixed, literal lines, in this order. *)
Theorem C5_four_confirmation_lines (w : World) :
  writable w output_filename = true ->
  exists w',
    create_presentation w = (Ok tt, w') /\
    printed_lines (events w') =
      printed_lines (events w) ++
      [ "✅ Presentation created successfully: Signal_Processing_Platform_Presentation.pptx";
        "📊 Total slides: 14";
        "🎨 Professional blue theme applied";
        "⏱️ Optimized for 3-minute delivery" ].
Proof.
  intros Hw. rewrite (create_presentation_writable w Hw).
  eexists. split; [reflexivity|]. cbn [events].
  apply printed_lines_after_run.
Qed.

Lemma C5_four_confirmation_lines_witness :
  writable fresh_world output_filename = true /\
  exists w',
    create_presentation fresh_world = (Ok tt, w') /\
    printed_lines (events w') =
      printed_lines (events fresh_world) ++
      [ "✅ Presentation created successfully: Signal_Processing_Platform_Presentation.pptx";
        "📊 Total slides: 14";
        "🎨 Professional blue theme applied";
        "⏱️ Optimized for 3-minute delivery" ].
Proof.
  split; [reflexivity|].
  apply (C5_four_confirmation_lines fresh_world). reflexivity.
Defined.

(** C6, as the specification states it, fails: with no items in bullet mode
    the new slide does not consist of the title bar and the title text
    alone. *)
Lemma C6_empty_bullet_counterexample :
  ~ exists e',
      add_content_slide "Title" [] "bullet" initial_env = Ok (0%nat, e') /\
      slides (prs e') = [[title_bar initial_env; title_box initial_env "Title"]].
Proof.
  intros (e' & Hrun & Hslides).
  rewrite add_content_slide_eq in Hrun.
  injection Hrun as <-. cbn in Hslides. discriminate.
Qed.

(** C6, amended: with no items in bullet mode the builder raises nothing
    and appends one slide that consists of the title bar, the title text box
    and the body text box, and the body text box holds no item: its only
    paragraph is the empty, unstyled one the library creates. *)
Theorem C6_empty_bullet_slide (title : string) (e : Env) :
  exists e' body,
    add_content_slide title [] "bullet" e = Ok (length (slides (prs e)), e') /\
    slides (prs e') = slides (prs e) ++ [[title_bar e; title_box e title; body]] /\
    body = styled_textbox (Inches 0.8) (Inches 1.5) (Inches 8.4) (Inches 5.5)
             (Some true) [new_paragraph EmptyString] /\
    item_texts body = [] /\
    frame_text (text_frame body) = EmptyString.
Proof.
  rewrite add_content_slide_eq.
  eexists _, _. split; [reflexivity|]. repeat split.
Qed.

(** C7, as the specification states it, fails: in the fresh world the last
    action of a successful run is not the write of the output file. *)
Lemma C7_save_last_counterexample :
  writable fresh_world output_filename = true /\
  ~ exists doc,
      list.last (events (create_presentation fresh_world).2) =
      Some (FileWritten output_filename doc).
Proof.
  split; [reflexivity|].
  rewrite (create_presentation_writable fresh_world eq_refl).
  intros (doc & Hlast). vm_compute in Hlast. discriminate.
Qed.

(** C7, amended: a successful run writes exactly one file, named
    'Signal_Processing_Platform_Presentation.pptx', after all fourteen
    slides are built; the write is the first thing the run does to the
    world and only the printed lines follow it. *)
Theorem C7_saved_once_then_printed (w : World) :
  writable w output_filename = true ->
  exists w' doc lines,
    create_presentation w = (Ok tt, w') /\
    events w' =
      events w ++
      FileWritten "Signal_Processing_Platform_Presentation.pptx" doc ::
      (Printed <$> lines) /\
    length (slides doc) = 14%nat /\
    length lines = 4%nat.
Proof.
  intros Hw. rewrite (create_presentation_writable w Hw).
  eexists _, final_document, confirmation_lines.
  split; [reflexivity|]. split; [reflexivity|]. split; reflexivity.
Qed.

Lemma C7_saved_once_then_printed_witness :
  writable fresh_world output_filename = true /\
  exists w' doc lines,
    create_presentation fresh_world = (Ok tt, w') /\
    events w' =
      events fresh_world ++
      FileWritten "Signal_Processing_Platform_Presentation.pptx" doc ::
      (Printed <$> lines) /\
    length (slides doc) = 14%nat /\
    length lines = 4%nat.
Proof.
  split; [reflexivity|].
  apply (C7_saved_once_then_printed fresh_world). reflexivity.
Defined.

(** C9: each of the three builders, for all its arguments and in every
    state of the variables, succeeds and changes the document only by one
    new slide at its end: the slides that were there (with all their shapes,
    positions and sizes) are kept as they were, and so are the canvas width
    and height and the five palette colours. *)
Theorem C9_builders_append_one_slide :
  (forall title subtitle,
     appends_one_slide (add_title_slide title subtitle)) /\
  (forall title content_items layout_type,
     appends_one_slide (add_content_slide title content_items layout_type)) /\
  (forall title features,
     appends_one_slide (add_feature_slide title features)).
Proof.
  split; [|split].
  - intros title subtitle e. rewrite add_title_slide_eq.
    eexists _, _. split; [reflexivity|]. by repeat split.
  - intros title content_items layout_type e. rewrite add_content_slide_eq.
    eexists _, _. split; [reflexivity|]. by repeat split.
  - intros title features e. rewrite add_feature_slide_eq.
    eexists _, _. split; [reflexivity|]. by repeat split.
Qed.

(** C10: for a layout type that is neither "bullet" nor "two_column" the
    content-slide builder raises nothing and appends a slide that holds the
    title bar and the title text box and nothing else. *)
Theorem C10_unknown_layout (title : string) (content_items : list string)
    (layout_type : string) (e : Env) :
  layout_type <> "bullet" ->
  layout_type <> "two_column" ->
  exists e',
    add_content_slide title content_items layout_type e =
      Ok (length (slides (prs e)), e') /\
    slides (prs e') = slides (prs e) ++ [[title_bar e; title_box e title]].
Proof.
  intros Hb Ht. rewrite add_content_slide_eq.
  eexists. split; [reflexivity|].
  unfold content_slide, content_body.
  apply String.eqb_neq in Hb, Ht. by rewrite Hb, Ht.
Qed.

Lemma C10_unknown_layout_witness :
  "grid" <> "bullet" /\
  "grid" <> "two_column" /\
  exists e',
    add_content_slide "Title" ["a"; "b"] "grid" initial_env =
      Ok (length (slides (prs initial_env)), e') /\
    slides (prs e') =
      slides (prs initial_env) ++
      [[title_bar initial_env; title_box initial_env "Title"]].
Proof.
  split; [discriminate|]. split; [discriminate|].
  apply (C10_unknown_layout "Title" ["a"; "b"] "grid" initial_env);
    discriminate.
Defined.

(** * Further properties of the builders *)


(** The stored text on small inputs: a line feed inside an item becomes a
    line break (read back as a vertical tab), a carriage return and U+0001
    are escaped, and a text set on a frame is first split at its line
    feeds. *)
Example appended_text_line_feed :
  appended_text (String.append "a" (String newline "b")) =
  String.append "a" (String vertical_tab "b").
Proof. reflexivity. Qed.

Example appended_text_carriage_return :
  appended_text (String.append "c" (String "013"%char "d")) = "c_x000D_d".
Proof. reflexivity. Qed.

Example frame_text_control_character :
  frame_text (frame_with_text (String.append "A" (String "001"%char "B"))
                new_text_frame) = "A_x0001_B".
Proof. reflexivity. Qed.

Example frame_text_carriage_return_line_feed :
  frame_text (frame_with_text
                (String.append "Q1" (String "013"%char (String newline "Q2")))
                new_text_frame) =
  String.append "Q1_x000D_" (String newline "Q2").
Proof. reflexivity. Qed.

Example two_column_items_with_breaks :
  exists e' left_box right_box,
    add_content_slide "T"
      [ String.append "a" (String newline "b");
        String.append "c" (String "013"%char "d");
        "e" ] "two_column" initial_env = Ok (0%nat, e') /\
    slides (prs e') =
      [[title_bar initial_env; title_box initial_env "T"; left_box; right_box]] /\
    item_texts left_box = [String.append "a" (String vertical_tab "b")] /\
    item_texts right_box = ["c_x000D_d"; "e"].
Proof.
  rewrite add_content_slide_eq.
  eexists _, _, _. split; [reflexivity|]. split; [reflexivity|].
  split; reflexivity.
Qed.





(** [add_content_slide] in bullet mode: the body text box holds one
    paragraph per item of the input, for all of them, in order, every one
    in the bullet style (20 pt, level 0, secondary colour, 12 pt before) and
    with the item as [p.text = item] stores it as its text; an empty list
    leaves the one blank paragraph of the fresh box. *)
Theorem bullet_mode_writes_every_item (title : string)
    (content_items : list string) (e : Env) :
  exists e' body,
    add_content_slide title content_items "bullet" e =
      Ok (length (slides (prs e)), e') /\
    slides (prs e') = slides (prs e) ++ [[title_bar e; title_box e title; body]] /\
    shape_type body = TextBox /\
    word_wrap (text_frame body) = Some true /\
    item_texts body = appended_text <$> content_items /\
    paragraphs (text_frame body) = filled (bullet_paragraph e) content_items /\
    length (paragraphs (text_frame body)) = (length content_items `max` 1)%nat.
Proof.
  rewrite add_content_slide_eq. unfold content_slide, content_body.
  cbn [String.eqb Ascii.eqb Bool.eqb].
  eexists _, _. split; [reflexivity|]. split; [reflexivity|].
  do 2 (split; [reflexivity|]).
  split; [by apply item_texts_filled|]. split; [reflexivity|].
  cbn [text_frame styled_textbox paragraphs].
  destruct content_items as [|item items]; [done|].
  cbn [filled]. rewrite length_fmap. cbn [length]. lia.
Qed.

(** [add_content_slide] in two-column mode loses and repeats nothing: the
    item paragraphs of the left box followed by those of the right box are
    the paragraphs of the input list, one per item, in order (each with the
    item as [p.text = item] stores it), and the right box holds as many
    items as the left one or one more. *)
Theorem two_column_keeps_all_items (title : string)
    (content_items : list string) (e : Env) :
  exists e' left_box right_box,
    add_content_slide title content_items "two_column" e =
      Ok (length (slides (prs e)), e') /\
    slides (prs e') =
      slides (prs e) ++ [[title_bar e; title_box e title; left_box; right_box]] /\
    item_texts left_box ++ item_texts right_box =
      appended_text <$> content_items /\
    length (item_texts left_box ++ item_texts right_box) = length content_items /\
    (length (item_texts left_box) <= length (item_texts right_box))%nat /\
    (length (item_texts right_box) <= length (item_texts left_box) + 1)%nat /\
    disjoint_shapes left_box right_box = true.
Proof.
  rewrite add_content_slide_eq. unfold content_slide, content_body.
  cbn [String.eqb Ascii.eqb Bool.eqb].
  eexists _, _, _. split; [reflexivity|]. split; [reflexivity|].
  rewrite !(item_texts_filled _ appended_text) by done.
  rewrite <- fmap_app, take_drop.
  split; [reflexivity|]. split; [by rewrite length_fmap|].
  rewrite !length_fmap, length_take, length_drop.
  pose proof (Nat.div_mod_eq (length content_items) 2) as Hdiv.
  pose proof (Nat.mod_upper_bound (length content_items) 2) as Hmod.
  split; [lia|]. split; [lia|]. vm_compute. reflexivity.
Qed.



(** The slide a builder appends does not depend on the slides that are
    already in the document: started on two documents that differ only in
    their slides, each builder appends the same slide to both, and returns
    the index of the new slide. *)
Theorem builders_ignore_existing_slides (ss1 ss2 : list Slide) (e : Env) :
  (forall title subtitle, exists s,
     add_title_slide title subtitle (set_slides ss1 e) =
       Ok (length ss1, set_slides (ss1 ++ [s]) e) /\
     add_title_slide title subtitle (set_slides ss2 e) =
       Ok (length ss2, set_slides (ss2 ++ [s]) e)) /\
  (forall title content_items layout_type, exists s,
     add_content_slide title content_items layout_type (set_slides ss1 e) =
       Ok (length ss1, set_slides (ss1 ++ [s]) e) /\
     add_content_slide title content_items layout_type (set_slides ss2 e) =
       Ok (length ss2, set_slides (ss2 ++ [s]) e)) /\
  (forall title features, exists s,
     add_feature_slide title features (set_slides ss1 e) =
       Ok (length ss1, set_slides (ss1 ++ [s]) e) /\
     add_feature_slide title features (set_slides ss2 e) =
       Ok (length ss2, set_slides (ss2 ++ [s]) e)).
Proof.
  split; [|split].
  - intros title subtitle. exists (title_slide e title subtitle).
    by rewrite !add_title_slide_eq.
  - intros title content_items layout_type.
    exists (content_slide e title content_items layout_type).
    by rewrite !add_content_slide_eq.
  - intros title features. exists (feature_slide e title features).
    by rewrite !add_feature_slide_eq.
Qed.

(** On the 10 by 7.5 inch canvas of the script every shape that a builder
    adds has a non-negative size and lies within the canvas, whatever the
    arguments of the call. *)
Theorem builders_stay_on_canvas (e : Env) :
  slide_width (prs e) = Inches 10 ->
  slide_height (prs e) = Inches 7.5 ->
  (forall title subtitle, exists e' s,
     add_title_slide title subtitle e = Ok (length (slides (prs e)), e') /\
     slides (prs e') = slides (prs e) ++ [s] /\
     forallb (within_canvas (Inches 10) (Inches 7.5)) s = true) /\
  (forall title content_items layout_type, exists e' s,
     add_content_slide title content_items layout_type e =
       Ok (length (slides (prs e)), e') /\
     slides (prs e') = slides (prs e) ++ [s] /\
     forallb (within_canvas (Inches 10) (Inches 7.5)) s = true) /\
  (forall title features, exists e' s,
     add_feature_slide title features e = Ok (length (slides (prs e)), e') /\
     slides (prs e') = slides (prs e) ++ [s] /\
     forallb (within_canvas (Inches 10) (Inches 7.5)) s = true).
Proof.
  intros Hw Hh. split; [|split].
  - intros title subtitle. rewrite add_title_slide_eq.
    eexists _, _. split; [reflexivity|]. split; [reflexivity|].
    unfold title_slide, filled_rectangle. rewrite Hw, Hh.
    vm_compute. reflexivity.
  - intros title content_items layout_type. rewrite add_content_slide_eq.
    eexists _, _. split; [reflexivity|]. split; [reflexivity|].
    unfold content_slide, content_body, title_bar, filled_rectangle.
    rewrite Hw.
    destruct (String.eqb layout_type "bullet");
      [|destruct (String.eqb layout_type "two_column")];
      vm_compute; reflexivity.
  - intros title features. rewrite add_feature_slide_eq.
    eexists _, _. split; [reflexivity|]. split; [reflexivity|].
    unfold feature_slide, title_bar, filled_rectangle. rewrite Hw.
    destruct features as [|f1 [|f2 [|f3 [|f4 fs]]]]; vm_compute; reflexivity.
Qed.

Lemma builders_stay_on_canvas_witness :
  slide_width (prs initial_env) = Inches 10 /\
  slide_height (prs initial_env) = Inches 7.5 /\
  exists e' s,
    add_feature_slide "Title" [("a", "b"); ("c", "d")] initial_env =
      Ok (length (slides (prs initial_env)), e') /\
    slides (prs e') = slides (prs initial_env) ++ [s] /\
    forallb (within_canvas (Inches 10) (Inches 7.5)) s = true.
Proof.
  split; [reflexivity|]. split; [reflexivity|].
  apply (builders_stay_on_canvas initial_env eq_refl eq_refl).
Defined.

(** [add_feature_slide]: the shapes after the title come in groups of
    three, one group per feature pair used (at most four); in every group
    the heading and the description lie within the bordered box and do not
    overlap each other, and no two boxes overlap. *)
Theorem feature_texts_lie_in_their_boxes (title : string)
    (features : list (string * string)) (e : Env) :
  exists e' groups,
    add_feature_slide title features e = Ok (length (slides (prs e)), e') /\
    slides (prs e') =
      slides (prs e) ++ [[title_bar e; title_box e title] ++ concat groups] /\
    length groups = (length features `min` 4)%nat /\
    forallb feature_group_ok groups = true /\
    pairwise_disjoint (concat (take 1 <$> groups)) = true.
Proof.
  rewrite add_feature_slide_eq. unfold feature_slide.
  eexists _, _. split; [reflexivity|]. split; [reflexivity|].
  destruct features as [|f1 [|f2 [|f3 [|f4 fs]]]];
    (split; [|split; vm_compute; reflexivity]); try reflexivity.
  cbn [take length zip_with feature_positions].
  rewrite (Nat.min_r _ 4) by lia. reflexivity.
Qed.

(** When the output path cannot be written the save raises, the exception
    ends the run, and the run leaves the world as it was: no file is
    written and none of the confirmation lines is printed. *)
Theorem unwritable_path_aborts_run (w : World) :
  writable w output_filename = false ->
  create_presentation w = (Raise OSError, w).
Proof. apply create_presentation_unwritable. Qed.

Lemma unwritable_path_aborts_run_witness :
  writable read_only_world output_filename = false /\
  create_presentation read_only_world = (Raise OSError, read_only_world).
Proof.
  split; [reflexivity|].
  apply (unwritable_path_aborts_run read_only_world). reflexivity.
Defined.

(** * Further properties of the run *)

(** The document the script builds keeps the 10 by 7.5 inch canvas, and
    every shape of every one of its slides, the inline slides included, has
    a non-negative size and lies within that canvas. *)
Theorem built_document_stays_on_canvas :
  exists e,
    build_slides initial_env = Ok (tt, e) /\
    slide_width (prs e) = Inches 10 /\
    slide_height (prs e) = Inches 7.5 /\
    forallb (forallb (within_canvas (Inches 10) (Inches 7.5))) (slides (prs e))
      = true.
Proof.
  destruct build_slides_initial_env as (e & He & Hdoc).
  exists e. split; [exact He|]. rewrite Hdoc.
  split; [vm_compute; reflexivity|]. split; vm_compute; reflexivity.
Qed.

(** The comparison table of slide 9: the three column widths are 2.5, 2.75
    and 2.75 inches and add up to the width of the table; every cell of the
    header row is filled with the primary colour and its text is 18 pt,
    bold, white and centred; in the six data rows only the first cell is
    filled (light background), and every cell's text is 16 pt, not bold, in
    the secondary colour and centred. *)
Theorem comparison_table_styling :
  exists e s frame t,
    build_slides initial_env = Ok (tt, e) /\
    slides (prs e) !! 8%nat = Some s /\
    list.last s = Some frame /\
    shape_table frame = Some t /\
    column_widths t = [Inches 2.5; Inches 2.75; Inches 2.75] /\
    foldr Z.add 0 (column_widths t) = shape_width frame /\
    map (map cell_fill) (table_rows t) =
      replicate 3 (FillSolid (Some (PRIMARY_COLOR e))) ::
      replicate 6 [FillSolid (Some (LIGHT_BG e)); FillInherited; FillInherited] /\
    map (map (fun c => map paragraph_style (paragraphs (cell_text_frame c))))
        (table_rows t) =
      replicate 3 [(Some (Pt 18), Some true, Some (WHITE e), Some CENTER)] ::
      replicate 6
        (replicate 3 [(Some (Pt 16), None, Some (SECONDARY_COLOR e), Some CENTER)]).
Proof.
  destruct build_slides_initial_env as (e & He & Hdoc).
  exists e. eexists _, _, _. split; [exact He|].
  assert (PRIMARY_COLOR e = RGB 0 102 204 /\ LIGHT_BG e = RGB 240 248 255 /\
          WHITE e = RGB 255 255 255 /\ SECONDARY_COLOR e = RGB 51 51 51)
    as (-> & -> & -> & ->).
  { clear Hdoc. vm_compute in He. by injection He as <-. }
  rewrite Hdoc.
  split; [vm_compute; reflexivity|].
  do 5 (split; [vm_compute; reflexivity|]).
  vm_compute; reflexivity.
Qed.

(** The stats slide (slide 12): after the title bar and the title there are
    eighteen shapes, three per statistic; the six boxes sit at the six grid
    positions in order, filled with the accent colour, and do not overlap;
    the text boxes read, in order, the number and the label of the first
    statistic, then of the second, and so on: statistic [i] is paired with
    position [i]. *)
Theorem stats_grid :
  exists e bar tbox rest,
    build_slides initial_env = Ok (tt, e) /\
    slides (prs e) !! 11%nat = Some (bar :: tbox :: rest) /\
    length rest = 18%nat /\
    map shape_position (List.filter is_autoshape rest) = stat_positions /\
    map shape_fill (List.filter is_autoshape rest) =
      replicate 6 (FillSolid (Some (ACCENT_COLOR e))) /\
    pairwise_disjoint (List.filter is_autoshape rest) = true /\
    map (fun sh => frame_text (text_frame sh)) (List.filter is_textbox rest) =
      concat (map (fun sl => [sl.1; sl.2]) stats).
Proof.
  destruct build_slides_initial_env as (e & He & Hdoc).
  exists e. eexists _, _, _. split; [exact He|].
  assert (ACCENT_COLOR e = RGB 0 176 80) as ->.
  { clear Hdoc. vm_compute in He. by injection He as <-. }
  rewrite Hdoc.
  split; [vm_compute; reflexivity|].
  do 4 (split; [vm_compute; reflexivity|]).
  vm_compute; reflexivity.
Qed.

(** The two closing slides (13 and 14) start with a rectangle that covers
    the whole canvas, in the primary colour on the call-to-action slide and
    in the accent colour on the thank-you slide.  The call-to-action slide
    then holds the heading, the steps box, whose items are the three steps
    in order, one centred paragraph each, and the contact box, whose text
    reads back as the two-line contact string; the thank-you slide holds the
    headline and the tagline. *)
Theorem closing_slides :
  exists e bg13 heading steps_box contact_box bg14 thanks tagline,
    build_slides initial_env = Ok (tt, e) /\
    slides (prs e) !! 12%nat = Some [bg13; heading; steps_box; contact_box] /\
    slides (prs e) !! 13%nat = Some [bg14; thanks; tagline] /\
    (shape_position bg13, shape_width bg13, shape_height bg13, shape_fill bg13) =
      ((0, 0), slide_width (prs e), slide_height (prs e),
       FillSolid (Some (PRIMARY_COLOR e))) /\
    (shape_position bg14, shape_width bg14, shape_height bg14, shape_fill bg14) =
      ((0, 0), slide_width (prs e), slide_height (prs e),
       FillSolid (Some (ACCENT_COLOR e))) /\
    frame_text (text_frame heading) = "Ready to Transform Your Workflow?" /\
    item_texts steps_box = steps_text /\
    map p_alignment (paragraphs (text_frame steps_box)) =
      replicate 3 (Some CENTER) /\
    frame_text (text_frame contact_box) =
      String.append "Let's discuss how this platform can solve"
        (String newline "your signal processing challenges") /\
    frame_text (text_frame thanks) = "Thank You!" /\
    frame_text (text_frame tagline) = "Signal Processing Visualization Platform".
Proof.
  destruct build_slides_initial_env as (e & He & Hdoc).
  exists e. eexists _, _, _, _, _, _, _. split; [exact He|].
  assert (PRIMARY_COLOR e = RGB 0 102 204 /\ ACCENT_COLOR e = RGB 0 176 80)
    as (-> & ->).
  { clear Hdoc. vm_compute in He. by injection He as <-. }
  rewrite Hdoc.
  split; [vm_compute; reflexivity|].
  do 8 (split; [vm_compute; reflexivity|]).
  vm_compute; reflexivity.
Qed.
